(** * News Research Assistant: the agent-contract layer and its coordinator

    A shallow embedding of
    - [agents/base_agent.py]      (structured response parser),
    - [agents/search_agent.py]    (fetching and ranking of articles),
    - [agents/analysis_agent.py]  (per-article analysis and aggregation),
    - [files/fact_check_agent.py] (bounded-concurrency verification),
    - [agents/report_agent.py]    (report synthesis),
    - [news_research_coordinator_light.py] (the pipeline coordinator, the
      rendering of the report and the name of its file),
    followed by the properties of the specification that concern them and by
    further properties of the same functions.

    Conventions.  A Python [str] is the list of its Unicode code points.
    Python values that travel through the pipeline are the values [json.loads]
    can produce; a [float] is the rational it denotes, an infinity or NaN.
    A computation that may raise
    returns an [outcome]; only subclasses of [Exception] are represented, since
    these are what [except Exception] handles.  [print], [tqdm] progress bars
    and the wording of prompts have no influence on the values computed and are
    left out. *)

From Stdlib Require Import String Ascii.
From Stdlib Require Import List ZArith NArith QArith Bool Lia Arith.
From Stdlib Require Import Sorting.Sorted Permutation.
Import ListNotations.

Close Scope Q_scope.
Local Open Scope nat_scope.
Set Warnings "-register-all".

(* ===================================================================== *)
(** * Python values *)
(* ===================================================================== *)

Module Py.

(** A [str]: its code points. *)
Definition pystr := list N.

(** An ASCII literal as a [str]. *)
Definition u (s : string) : pystr := map N_of_ascii (list_ascii_of_string s).

Fixpoint pystr_eqb (a b : pystr) : bool :=
  match a, b with
  | [], [] => true
  | x :: a', y :: b' => N.eqb x y && pystr_eqb a' b'
  | _, _ => false
  end.

(** [Py_UNICODE_ISSPACE]: the predicate behind both [\s] of [re] on [str]
    patterns and [str.strip()]. *)
Definition is_space (c : N) : bool :=
  ((9 <=? c) && (c <=? 13) || (28 <=? c) && (c <=? 32)
   || (c =? 133) || (c =? 160) || (c =? 5760)
   || (8192 <=? c) && (c <=? 8202)
   || (c =? 8232) || (c =? 8233) || (c =? 8239) || (c =? 8287)
   || (c =? 12288))%N.

(** [s.startswith(p)] *)
Fixpoint startswith (p s : pystr) : bool :=
  match p, s with
  | [], _ => true
  | x :: p', y :: s' => N.eqb x y && startswith p' s'
  | _ :: _, [] => false
  end.

Fixpoint lstrip (s : pystr) : pystr :=
  match s with
  | [] => []
  | c :: t => if is_space c then lstrip t else s
  end.

Definition rstrip (s : pystr) : pystr := rev (lstrip (rev s)).

(** [s.strip()] *)
Definition strip (s : pystr) : pystr := rstrip (lstrip s).

(** The exception classes that occur, each a subclass of [Exception].
    [JSONDecodeError] is a subclass of [ValueError]; [OtherException] stands
    for any further class (transport errors of the OpenAI client, [OSError],
    [RecursionError], ...). *)
Inductive exn_class :=
| ValueError | JSONDecodeError | KeyError | IndexError
| TypeError | AttributeError | OverflowError | OtherException (name : pystr).

Record exn := Exn { exn_cls : exn_class; exn_msg : pystr }.

(** [isinstance(e, ValueError)] *)
Definition is_ValueError (e : exn) : bool :=
  match exn_cls e with ValueError | JSONDecodeError => true | _ => false end.

Definition is_JSONDecodeError (e : exn) : bool :=
  match exn_cls e with JSONDecodeError => true | _ => false end.

Definition is_KeyError (e : exn) : bool :=
  match exn_cls e with KeyError => true | _ => false end.

Definition is_IndexError (e : exn) : bool :=
  match exn_cls e with IndexError => true | _ => false end.

(** The result of running code that may raise. *)
Inductive outcome (A : Type) :=
| Return (a : A)
| Raise (e : exn).
Arguments Return {A} a.
Arguments Raise {A} e.

Definition bind {A B} (m : outcome A) (k : A -> outcome B) : outcome B :=
  match m with
  | Return a => k a
  | Raise e => Raise e
  end.

(** [try: m  except Exception as e: h e] *)
Definition try_except {A} (m : outcome A) (h : exn -> outcome A) : outcome A :=
  match m with
  | Return a => Return a
  | Raise e => h e
  end.

Definition raises {A} (m : outcome A) : Prop := exists e, m = Raise e.
Definition returns {A} (m : outcome A) : Prop := exists a, m = Return a.

(** A [float]: the rational a finite double denotes, or one of the two
    infinities, or NaN.  The two zeros are not told apart; they compare
    equal. *)
Inductive pyfloat :=
| Finite (q : Q)
| Inf (negative : bool)
| NaN.

Bind Scope Q_scope with pyfloat.
Coercion Finite : Q >-> pyfloat.

Definition is_nan (f : pyfloat) : bool :=
  match f with NaN => true | _ => false end.

(** [a <= b] and [a == b] on floats: false as soon as one side is NaN. *)
Definition fle_bool (a b : pyfloat) : bool :=
  match a, b with
  | NaN, _ | _, NaN => false
  | Inf true, _ => true
  | _, Inf false => true
  | Finite p, Finite q => Qle_bool p q
  | Finite _, Inf true => false
  | Inf false, _ => false
  end.

Definition feq_bool (a b : pyfloat) : bool :=
  match a, b with
  | Finite p, Finite q => Qeq_bool p q
  | Inf m, Inf n => Bool.eqb m n
  | _, _ => false
  end.

(** The values of the pipeline: what [json.loads] yields.  A [dict] keeps its
    insertion order. *)
Inductive pyval :=
| VNone
| VBool (b : bool)
| VInt (z : Z)
| VFloat (f : pyfloat)
| VStr (s : pystr)
| VList (l : list pyval)
| VDict (d : list (pystr * pyval)).

Definition pydict := list (pystr * pyval).

(** [v is None] *)
Definition is_None (v : pyval) : bool :=
  match v with VNone => true | _ => false end.

(** [isinstance(v, list)], [isinstance(v, dict)] *)
Definition is_list (v : pyval) : bool :=
  match v with VList _ => true | _ => false end.
Definition is_dict (v : pyval) : bool :=
  match v with VDict _ => true | _ => false end.

Fixpoint dict_lookup (d : pydict) (k : pystr) : option pyval :=
  match d with
  | [] => None
  | (k', v) :: d' => if pystr_eqb k' k then Some v else dict_lookup d' k
  end.

(** [d.get(k, dflt)] on a dict *)
Definition dict_get (d : pydict) (k : pystr) (dflt : pyval) : pyval :=
  match dict_lookup d k with Some v => v | None => dflt end.

(** [d[k] = v] on a dict: an existing key keeps its position. *)
Fixpoint dict_set (d : pydict) (k : pystr) (v : pyval) : pydict :=
  match d with
  | [] => [(k, v)]
  | (k', v') :: d' =>
      if pystr_eqb k' k then (k', v) :: d' else (k', v') :: dict_set d' k v
  end.

(** [v[k]] with a [str] key [k]: only a dict can be subscripted by a string. *)
Definition getitem (v : pyval) (k : pystr) : outcome pyval :=
  match v with
  | VDict d =>
      match dict_lookup d k with
      | Some x => Return x
      | None => Raise (Exn KeyError k)
      end
  | _ => Raise (Exn TypeError (u "indices must be integers or object is not subscriptable"))
  end.

(** [v.get(k, dflt)]: only a dict has the method. *)
Definition get (v : pyval) (k : pystr) (dflt : pyval) : outcome pyval :=
  match v with
  | VDict d => Return (dict_get d k dflt)
  | _ => Raise (Exn AttributeError (u "object has no attribute 'get'"))
  end.

(** [l[i]] on a list, with Python's negative indices. *)
Definition list_index {A} (l : list A) (i : Z) : outcome A :=
  let n := Z.of_nat (length l) in
  let j := (if i <? 0 then i + n else i)%Z in
  if (j <? 0)%Z || (n <=? j)%Z
  then Raise (Exn IndexError (u "list index out of range"))
  else match nth_error l (Z.to_nat j) with
       | Some x => Return x
       | None => Raise (Exn IndexError (u "list index out of range"))
       end.

(** [len(v)] *)
Definition len (v : pyval) : outcome nat :=
  match v with
  | VStr s => Return (length s)
  | VList l => Return (length l)
  | VDict d => Return (length d)
  | _ => Raise (Exn TypeError (u "object has no len()"))
  end.

(** What iterating over [v] yields, as [list.extend(v)] does: the elements of a
    list, the characters of a string, the keys of a dict. *)
Definition iterate (v : pyval) : outcome (list pyval) :=
  match v with
  | VList l => Return l
  | VStr s => Return (map (fun c => VStr [c]) s)
  | VDict d => Return (map (fun kv => VStr (fst kv)) d)
  | _ => Raise (Exn TypeError (u "object is not iterable"))
  end.

(** The parts of the Python runtime the agents call and whose definition is
    not part of this repository: [json.loads]; the parsing of a [str] by
    [int] and [float] ([float] accepts [nan] and [inf] among others and
    rounds to a double); the text [repr] gives for a value; and what
    [list.sort(key=..., reverse=True)] makes of a list in which some key is
    NaN, where the keys are not ordered: some rearrangement of the list. *)
Class Runtime := {
  json_loads : pystr -> outcome pyval;
  int_of_str : pystr -> option Z;
  float_of_str : pystr -> option pyfloat;
  repr : pyval -> pystr;
  sort_unordered : forall A : Type, (A -> pyfloat) -> list A -> list A;
  sort_unordered_perm :
    forall (A : Type) (key : A -> pyfloat) (l : list A),
      Permutation l (sort_unordered A key l)
}.

(** [str(v)] *)
Definition str `{Runtime} (v : pyval) : pystr :=
  match v with
  | VStr s => s
  | _ => repr v
  end.

(** [str(e)] for an exception: its argument, which [KeyError] shows through
    [repr]. *)
Definition exn_str `{Runtime} (e : exn) : pystr :=
  match exn_cls e with
  | KeyError => repr (VStr (exn_msg e))
  | _ => exn_msg e
  end.

(** [int(v)] *)
Definition int `{Runtime} (v : pyval) : outcome Z :=
  match v with
  | VInt z => Return z
  | VBool b => Return (if b then 1 else 0)%Z
  | VFloat (Finite q) => Return (Z.quot (Qnum q) (Zpos (Qden q)))
  | VFloat NaN => Raise (Exn ValueError (u "cannot convert float NaN to integer"))
  | VFloat (Inf _) =>
      Raise (Exn OverflowError (u "cannot convert float infinity to integer"))
  | VStr s =>
      match int_of_str s with
      | Some z => Return z
      | None => Raise (Exn ValueError (u "invalid literal for int() with base 10"))
      end
  | _ => Raise (Exn TypeError (u "int() argument must be a string or a real number"))
  end.

(** The double nearest to an [int], ties going to the even significand of
    53 bits; there is none from [2 ^ 1024] on. *)
Definition nearest_double (z : Z) : option Q :=
  let a := Z.abs z in
  let e := (Z.log2 a - 52)%Z in
  if (e <=? 0)%Z then Some (inject_Z z)
  else
    let m := Z.shiftr a e in
    let r := Z.land a (Z.ones e) in
    let half := Z.shiftl 1 (e - 1) in
    let m' := if (half <? r)%Z || ((r =? half)%Z && Z.odd m)
              then (m + 1)%Z else m in
    let v := Z.shiftl m' e in
    if (2 ^ 1024 <=? v)%Z then None else Some (inject_Z (Z.sgn z * v)).

(** [float(n)] on an [int]: exact up to [2 ^ 53], rounded beyond. *)
Definition float_of_int (z : Z) : outcome pyfloat :=
  match nearest_double z with
  | Some q => Return (Finite q)
  | None => Raise (Exn OverflowError (u "int too large to convert to float"))
  end.

(** [float(v)] *)
Definition float `{Runtime} (v : pyval) : outcome pyfloat :=
  match v with
  | VInt z => float_of_int z
  | VBool b => Return (Finite (inject_Z (if b then 1 else 0)))
  | VFloat f => Return f
  | VStr s =>
      match float_of_str s with
      | Some f => Return f
      | None => Raise (Exn ValueError (u "could not convert string to float"))
      end
  | _ => Raise (Exn TypeError (u "float() argument must be a string or a real number"))
  end.

End Py.

Import Py.

Declare Scope py_scope.
Delimit Scope py_scope with py.
Notation "x <- m ;; k" := (bind m (fun x => k))
  (at level 61, m at next level, right associativity) : py_scope.
Local Open Scope py_scope.

(* ===================================================================== *)
(** * agents/base_agent.py *)
(* ===================================================================== *)

Module BaseAgent.

Definition fence : pystr := u "```".
Definition fence_json : pystr := u "```json".

(** [re.sub(r'```json\s*', '', response)].  The scan goes left to right; at a
    position where the text reads [```json] the match takes these seven
    characters and all white space that follows, and the scan resumes after it.
    [skip] counts the characters of the fence still to drop, [ws] tells that
    the white space after a fence is being dropped. *)
Fixpoint sub_fence_json (skip : nat) (ws : bool) (s : pystr) : pystr :=
  match s with
  | [] => []
  | c :: t =>
      match skip with
      | S k => sub_fence_json k true t
      | O =>
          if ws && is_space c then sub_fence_json 0 true t
          else if startswith fence_json s then sub_fence_json 6 true t
          else c :: sub_fence_json 0 false t
      end
  end.

(** [re.sub(r'```\s*$', '', response)]: the leftmost [```] followed by nothing
    but white space up to the end of the text is removed with that white
    space. *)
Fixpoint sub_fence_end (s : pystr) : pystr :=
  match s with
  | [] => []
  | c :: t =>
      if startswith fence s && forallb is_space (skipn 3 s) then []
      else c :: sub_fence_end t
  end.

Definition _clean_json_response (response : pystr) : outcome pystr :=
  let response := sub_fence_json 0 false response in
  let response := sub_fence_end response in
  let response := strip response in
  if negb (startswith (u "{") response) && negb (startswith (u "[") response)
  then Raise (Exn ValueError (u "Response is not a valid JSON object/array"))
  else Return response.

(** [default_value=None] is the absence of a default. *)
Definition _parse_json_response `{Runtime}
    (response : pystr) (default_value : pyval) : outcome pyval :=
  try_except
    (cleaned_response <- _clean_json_response response ;;
     json_loads cleaned_response)
    (fun e => if negb (is_None default_value)
              then Return default_value
              else Raise e).

End BaseAgent.

(* ===================================================================== *)
(** * agents/search_agent.py *)
(* ===================================================================== *)

Module SearchAgent.

Import BaseAgent.

(** [config.MAX_ARTICLES_PER_SEARCH] *)
Definition MAX_ARTICLES_PER_SEARCH : nat := 10.

(** One entry of [articles_for_evaluation]; [.get] on a ['source'] that is not
    a dict raises. *)
Definition evaluation_entry (idx : nat) (article : pydict) : outcome pyval :=
  source <- get (dict_get article (u "source") (VDict [])) (u "name")
                (VStr (u "Unknown Source")) ;;
  Return (VDict [ (u "id", VInt (Z.of_nat idx));
                  (u "title", dict_get article (u "title") (VStr []));
                  (u "description", dict_get article (u "description") (VStr []));
                  (u "source", source);
                  (u "url", dict_get article (u "url") (VStr []));
                  (u "publishedAt", dict_get article (u "publishedAt") (VStr [])) ]).

(** The first loop of [_rank_articles]: an article whose entry raises is left
    out and the enumeration goes on. *)
Fixpoint articles_for_evaluation (idx : nat) (articles : list pydict) : list pyval :=
  match articles with
  | [] => []
  | article :: rest =>
      match evaluation_entry idx article with
      | Return entry => entry :: articles_for_evaluation (S idx) rest
      | Raise _ => articles_for_evaluation (S idx) rest
      end
  end.

(** The body of the [try] inside the loop over the ranked entries: [None] when
    the guard [article_id < len(articles)] is false, otherwise the copy of the
    article with its two new fields. *)
Definition resolve_ranked `{Runtime}
    (articles : list pydict) (ranked : pyval) : outcome (option pydict) :=
  id <- getitem ranked (u "id") ;;
  article_id <- int id ;;
  if (article_id <? Z.of_nat (length articles))%Z then
    article <- list_index articles article_id ;;
    score_raw <- get ranked (u "relevance_score") (VInt 0) ;;
    score <- float score_raw ;;
    let article := dict_set article (u "relevance_score") (VFloat score) in
    explanation <- get ranked (u "explanation") (VStr []) ;;
    let article := dict_set article (u "ranking_explanation") explanation in
    Return (Some article)
  else Return None.

(** [except (ValueError, KeyError, IndexError)] *)
Definition skipped_error (e : exn) : bool :=
  is_ValueError e || is_KeyError e || is_IndexError e.

(** The loop over the ranked entries; [ranked_articles] is the list built so
    far.  An exception of another class leaves the loop. *)
Fixpoint match_ranked `{Runtime} (articles : list pydict) (entries : list pyval)
    (ranked_articles : list pydict) : outcome (list pydict) :=
  match entries with
  | [] => Return ranked_articles
  | ranked :: rest =>
      match resolve_ranked articles ranked with
      | Return (Some article) =>
          match_ranked articles rest (ranked_articles ++ [article])
      | Return None => match_ranked articles rest ranked_articles
      | Raise e =>
          if skipped_error e then match_ranked articles rest ranked_articles
          else Raise e
      end
  end.

(** [x.get('relevance_score', 0)]: on the articles of [ranked_articles] this
    is the float stored by [resolve_ranked], which may be an infinity or
    NaN. *)
Definition sort_key (x : pydict) : pyfloat :=
  match dict_get x (u "relevance_score") (VInt 0) with
  | VFloat f => f
  | VInt z => Finite (inject_Z z)
  | VBool b => Finite (inject_Z (if b then 1 else 0))
  | _ => Finite 0
  end.

(** Some key is NaN: the keys are then not ordered by [<]. *)
Definition unordered (l : list pydict) : bool :=
  existsb (fun x => is_nan (sort_key x)) l.

(** The stable descending arrangement: articles of equal key keep their
    relative order. *)
Fixpoint insert_desc (x : pydict) (l : list pydict) : list pydict :=
  match l with
  | [] => [x]
  | y :: l' =>
      if fle_bool (sort_key y) (sort_key x) then x :: l
      else y :: insert_desc x l'
  end.

Definition stable_desc (l : list pydict) : list pydict :=
  fold_right insert_desc [] l.

(** [list.sort(key=..., reverse=True)]: when no key is NaN the keys are
    totally ordered and the sort, being stable, gives the stable descending
    arrangement; otherwise it gives what the sorting algorithm makes of
    comparisons that are all false on NaN. *)
Definition sort_desc `{Runtime} (l : list pydict) : list pydict :=
  if unordered l then sort_unordered pydict sort_key l else stable_desc l.

(** The [try] block of [_rank_articles] up to the end of the loop; [llm] is
    what [_call_openai] does on the evaluation prompt. *)
Definition ranked_survivors `{Runtime}
    (articles : list pydict) (llm : outcome pystr) : outcome (list pydict) :=
  response <- llm ;;
  parsed_response <- _parse_json_response response
                       (VDict [(u "ranked_articles", VList [])]) ;;
  listed <- get parsed_response (u "ranked_articles") (VList []) ;;
  entries <- iterate listed ;;
  match_ranked articles entries [].

Definition _rank_articles `{Runtime}
    (articles : list pydict) (llm : outcome pystr) : list pydict :=
  match articles with
  | [] => []
  | _ :: _ =>
      match articles_for_evaluation 0 articles with
      | [] => firstn MAX_ARTICLES_PER_SEARCH articles
      | _ :: _ =>
          match ranked_survivors articles llm with
          | Return [] => firstn MAX_ARTICLES_PER_SEARCH articles
          | Return ranked_articles => sort_desc ranked_articles
          | Raise _ => firstn MAX_ARTICLES_PER_SEARCH articles
          end
      end
  end.

(** [process]: [raw_articles] is what [_fetch_articles] returned. *)
Definition process `{Runtime}
    (raw_articles : list pydict) (llm : outcome pystr) : list pydict :=
  match raw_articles with
  | [] => []
  | _ :: _ => firstn MAX_ARTICLES_PER_SEARCH (_rank_articles raw_articles llm)
  end.

End SearchAgent.

(* ===================================================================== *)
(** * agents/analysis_agent.py *)
(* ===================================================================== *)

Module AnalysisAgent.

Import BaseAgent.

(** The five lists of the [results] dict of [process].  They are appended to
    in place, one statement after the other, so what an interrupted sequence
    of statements has already appended stays. *)
Record results := Results {
  summaries : list pyval;
  key_points : list pyval;
  sentiment : list pyval;
  topics : list pyval;
  biases : list pyval
}.

Definition empty_results : results := Results [] [] [] [] [].

(** Statements that update [results] and may raise: the state reached, and
    the exception if one was raised. *)
Definition stmt := results -> results * option exn.

Definition seq (a b : stmt) : stmt :=
  fun r => match a r with
           | (r', None) => b r'
           | (r', Some e) => (r', Some e)
           end.

(** [results[field].append(v)] and [results[field].extend(v)], where
    evaluating the argument may raise. *)
Definition update (arg : outcome (list pyval))
    (add : results -> list pyval -> results) : stmt :=
  fun r => match arg with
           | Return vs => (add r vs, None)
           | Raise e => (r, Some e)
           end.

Definition add_summaries r vs :=
  Results (summaries r ++ vs) (key_points r) (sentiment r) (topics r) (biases r).
Definition add_key_points r vs :=
  Results (summaries r) (key_points r ++ vs) (sentiment r) (topics r) (biases r).
Definition add_sentiment r vs :=
  Results (summaries r) (key_points r) (sentiment r ++ vs) (topics r) (biases r).
Definition add_topics r vs :=
  Results (summaries r) (key_points r) (sentiment r) (topics r ++ vs) (biases r).
Definition add_biases r vs :=
  Results (summaries r) (key_points r) (sentiment r) (topics r) (biases r ++ vs).

Definition one (x : outcome pyval) : outcome (list pyval) :=
  v <- x ;; Return [v].

Definition failed : pyval := VStr (u "Analysis failed").

Definition failed_sentiment : pyval :=
  VDict [(u "score", VInt 0); (u "explanation", failed)].

Definition failed_bias : pyval :=
  VDict [(u "detected", VBool false); (u "explanation", failed)].

Definition default_analysis : pyval :=
  VDict [ (u "summary", failed);
          (u "key_points", VList [failed]);
          (u "sentiment", failed_sentiment);
          (u "topics", VList [VStr (u "Unknown")]);
          (u "bias", failed_bias) ].

(** [_analyze_article].  The prompt reads [article.get('source', {}).get('name', '')]
    before the [try]; the [except] of the [try] raises again; [llm] is what
    [_call_openai] does on the prompt. *)
Definition _analyze_article `{Runtime}
    (article : pydict) (llm : outcome pystr) : outcome pyval :=
  _ <- get (dict_get article (u "source") (VDict [])) (u "name") (VStr []) ;;
  response <- llm ;;
  _parse_json_response response default_analysis.

(** The five statements of the [try] block after the analysis is there. *)
Definition record_analysis (analysis : pyval) : stmt :=
  seq (update (one (getitem analysis (u "summary"))) add_summaries)
 (seq (update (v <- getitem analysis (u "key_points") ;; iterate v) add_key_points)
 (seq (update (one (getitem analysis (u "sentiment"))) add_sentiment)
 (seq (update (v <- getitem analysis (u "topics") ;; iterate v) add_topics)
      (update (one (getitem analysis (u "bias"))) add_biases)))).

(** The [except] block: one placeholder appended to each list. *)
Definition record_failure (r : results) : results :=
  Results (summaries r ++ [failed])
          (key_points r ++ [failed])
          (sentiment r ++ [failed_sentiment])
          (topics r ++ [VStr (u "Unknown")])
          (biases r ++ [failed_bias]).

(** One turn of the loop over the articles. *)
Definition analyze_one `{Runtime}
    (article : pydict) (llm : outcome pystr) (r : results) : results :=
  match _analyze_article article llm with
  | Raise _ => record_failure r
  | Return analysis =>
      match record_analysis analysis r with
      | (r', None) => r'
      | (r', Some _) => record_failure r'
      end
  end.

(** The loop; [llm i] is what [_call_openai] does for the article at
    position [i] of the input. *)
Fixpoint analyze_from `{Runtime} (i : nat) (articles : list pydict)
    (llm : nat -> outcome pystr) (r : results) : results :=
  match articles with
  | [] => r
  | article :: rest =>
      analyze_from (S i) rest llm (analyze_one article (llm i) r)
  end.

Definition analyze_all `{Runtime}
    (articles : list pydict) (llm : nat -> outcome pystr) : results :=
  analyze_from 0 articles llm empty_results.

Definition _get_default_overall_analysis : pyval :=
  VDict [ (u "main_narrative", failed);
          (u "common_themes", VList []);
          (u "conflicting_viewpoints", VList []);
          (u "overall_sentiment", VStr (u "neutral"));
          (u "potential_gaps", VList [VStr (u "Analysis failed to complete")]) ].

Definition _perform_overall_analysis `{Runtime}
    (r : results) (llm : outcome pystr) : outcome pyval :=
  response <- llm ;;
  _parse_json_response response _get_default_overall_analysis.

(** The dict [process] returns. *)
Definition results_dict (r : results) (overall_analysis : pyval) : pydict :=
  [ (u "summaries", VList (summaries r));
    (u "key_points", VList (key_points r));
    (u "sentiment", VList (sentiment r));
    (u "topics", VList (topics r));
    (u "biases", VList (biases r));
    (u "overall_analysis", overall_analysis) ].

Definition process `{Runtime} (articles : list pydict)
    (llm : nat -> outcome pystr) (llm_overall : outcome pystr) : pydict :=
  let r := analyze_all articles llm in
  let overall_analysis :=
    match _perform_overall_analysis r llm_overall with
    | Return v => v
    | Raise _ => _get_default_overall_analysis
    end in
  results_dict r overall_analysis.

End AnalysisAgent.

(* ===================================================================== *)
(** * files/fact_check_agent.py *)
(* ===================================================================== *)

Module FactCheckAgent.

Import BaseAgent.

(** [self.max_concurrent] *)
Definition max_concurrent : nat := 3.

Definition zero_credibility : pyval :=
  VDict [ (u "source_credibility", VFloat 0);
          (u "evidence_quality", VFloat 0);
          (u "overall_reliability", VFloat 0) ].

Definition _get_default_verification : pyval :=
  VDict [ (u "verified_claims", VList []);
          (u "unverified_claims", VList []);
          (u "credibility_assessment", zero_credibility);
          (u "verification_summary", VStr (u "Verification failed")) ].

(** The [try] block of [_verify_article] after the call to the LLM: the
    parsed response is copied field by field into a fresh dict. *)
Definition copy_verification `{Runtime} (response : pystr) : outcome pyval :=
  parsed_response <- _parse_json_response response _get_default_verification ;;
  verified <- get parsed_response (u "verified_claims") VNone ;;
  let verified_claims := if is_list verified then verified else VList [] in
  unverified <- get parsed_response (u "unverified_claims") VNone ;;
  let unverified_claims := if is_list unverified then unverified else VList [] in
  cred <- get parsed_response (u "credibility_assessment") VNone ;;
  credibility_assessment <-
    (if is_dict cred then
       sc_raw <- get cred (u "source_credibility") (VInt 0) ;;
       sc <- float sc_raw ;;
       eq_raw <- get cred (u "evidence_quality") (VInt 0) ;;
       eq <- float eq_raw ;;
       orl_raw <- get cred (u "overall_reliability") (VInt 0) ;;
       orl <- float orl_raw ;;
       Return (VDict [ (u "source_credibility", VFloat sc);
                       (u "evidence_quality", VFloat eq);
                       (u "overall_reliability", VFloat orl) ])
     else Return zero_credibility) ;;
  summary <- get parsed_response (u "verification_summary") (VStr []) ;;
  Return (VDict [ (u "verified_claims", verified_claims);
                  (u "unverified_claims", unverified_claims);
                  (u "credibility_assessment", credibility_assessment);
                  (u "verification_summary", VStr (str summary)) ]).

(** A coroutine that awaits the LLM at most once: either it finishes without
    suspending, or it is suspended on [_call_openai] and goes on with what the
    call does. *)
Inductive coroutine (A : Type) :=
| Done (r : outcome A)
| AwaitLLM (k : outcome pystr -> outcome A).
Arguments Done {A} r.
Arguments AwaitLLM {A} k.

(** [_verify_article].  The prompt reads
    [article.get('source', {}).get('name', 'Unknown Source')] before the [try];
    inside the [try] every exception yields the default verification. *)
Definition _verify_article `{Runtime} (article : pydict) : coroutine pyval :=
  match get (dict_get article (u "source") (VDict [])) (u "name")
            (VStr (u "Unknown Source")) with
  | Raise e => Done (Raise e)
  | Return _ =>
      AwaitLLM (fun llm =>
        try_except (response <- llm ;; copy_verification response)
                   (fun _ => Return _get_default_verification))
  end.

(** The dict [process_article] returns. *)
Definition fact_check_result (article : pydict) (verification : pyval) : pyval :=
  VDict [ (u "article_url", dict_get article (u "url") (VStr []));
          (u "verification_results", verification);
          (u "article_data", VDict article) ].

(** The [try]/[except] inside [async with semaphore] of [process_article]. *)
Definition guarded (article : pydict) (r : outcome pyval) : outcome pyval :=
  try_except (verification <- r ;; Return (fact_check_result article verification))
             (fun _ => Return (fact_check_result article _get_default_verification)).

(** The body of [process_article] once the semaphore is held. *)
Definition process_article `{Runtime} (article : pydict) : coroutine pyval :=
  match _verify_article article with
  | Done r => Done (guarded article r)
  | AwaitLLM k => AwaitLLM (fun llm => guarded article (k llm))
  end.

(** A task made by [asyncio.gather] from [process_article(article)]: it waits
    for the semaphore, or holds it while its call to the LLM is in flight, or
    has finished and released it. *)
Inductive task :=
| Waiting
| Calling (k : outcome pystr -> outcome pyval)
| Finished (r : outcome pyval).

(** The event loop's view of [process]: the value of the semaphore and the
    tasks, in the order of [articles]. *)
Record pool := Pool { semaphore : nat; tasks : list task }.

Definition start (articles : list pydict) : pool :=
  Pool max_concurrent (map (fun _ => Waiting) articles).

(** What the event loop can do next: let task [i] enter [async with
    semaphore], or deliver to task [i] what its call to the LLM did. *)
Inductive event :=
| Acquire (i : nat)
| Complete (i : nat) (llm : outcome pystr).

Fixpoint set_nth {A} (i : nat) (x : A) (l : list A) : list A :=
  match l, i with
  | [], _ => []
  | _ :: t, O => x :: t
  | y :: t, S j => y :: set_nth j x t
  end.

(** One step.  [Acquire i] needs a free slot; the body then runs up to its
    first suspension: if it finishes at once the slot is released in the same
    step, otherwise the slot stays taken while the call is in flight.
    [Complete i llm] resumes the task, which finishes and leaves [async with],
    releasing the slot whatever the call did. *)
Definition step `{Runtime} (articles : list pydict) (p : pool) (ev : event)
    : option pool :=
  match ev with
  | Acquire i =>
      match nth_error (tasks p) i, nth_error articles i, semaphore p with
      | Some Waiting, Some article, S free =>
          match process_article article with
          | Done r => Some (Pool (S free) (set_nth i (Finished r) (tasks p)))
          | AwaitLLM k => Some (Pool free (set_nth i (Calling k) (tasks p)))
          end
      | _, _, _ => None
      end
  | Complete i llm =>
      match nth_error (tasks p) i with
      | Some (Calling k) =>
          Some (Pool (S (semaphore p)) (set_nth i (Finished (k llm)) (tasks p)))
      | _ => None
      end
  end.

Fixpoint run `{Runtime} (articles : list pydict) (p : pool) (evs : list event)
    : option pool :=
  match evs with
  | [] => Some p
  | ev :: rest =>
      match step articles p ev with
      | Some p' => run articles p' rest
      | None => None
      end
  end.

(** The pools [process] can be in. *)
Definition reachable `{Runtime} (articles : list pydict) (p : pool) : Prop :=
  exists evs, run articles (start articles) evs = Some p.

(** The number of calls to the LLM in flight. *)
Fixpoint in_flight (ts : list task) : nat :=
  match ts with
  | [] => 0
  | Calling _ :: t => S (in_flight t)
  | _ :: t => in_flight t
  end.

(** [await asyncio.gather] over the tasks: the results in the order of the
    tasks once all have finished; the exception of a task that raised is
    passed on as soon as the tasks before it have finished; nothing
    otherwise. *)
Fixpoint gather (ts : list task) : option (outcome (list pyval)) :=
  match ts with
  | [] => Some (Return [])
  | Finished (Raise e) :: _ => Some (Raise e)
  | Finished (Return v) :: t =>
      match gather t with
      | Some (Return vs) => Some (Return (v :: vs))
      | other => other
      end
  | _ :: _ => None
  end.

(** [process] returns [result] along the schedule [evs]. *)
Definition process_returns `{Runtime} (articles : list pydict)
    (evs : list event) (result : outcome (list pyval)) : Prop :=
  exists p, run articles (start articles) evs = Some p
            /\ gather (tasks p) = Some result.

(** The schedule that runs the tasks one after the other; [llm i] is what the
    call made for the article at position [i] does. *)
Fixpoint sequential `{Runtime} (i : nat) (articles : list pydict)
    (llm : nat -> outcome pystr) : list event :=
  match articles with
  | [] => []
  | article :: rest =>
      match process_article article with
      | Done _ => Acquire i :: sequential (S i) rest llm
      | AwaitLLM _ => Acquire i :: Complete i (llm i) :: sequential (S i) rest llm
      end
  end.

End FactCheckAgent.

(* ===================================================================== *)
(** * agents/report_agent.py *)
(* ===================================================================== *)

Module ReportAgent.

(** [try: return json.loads(response)  except json.JSONDecodeError: return dflt] *)
Definition loads_or `{Runtime} (response : pystr) (dflt : pyval) : outcome pyval :=
  try_except (json_loads response)
             (fun e => if is_JSONDecodeError e then Return dflt else Raise e).

Definition summary_with (main_findings : pystr) : pyval :=
  VDict [ (u "main_findings", VStr main_findings);
          (u "key_trends", VList []);
          (u "critical_insights", VList []);
          (u "reliability_assessment", VStr []) ].

(** [_generate_executive_summary]; [llm] is what [_call_openai] does. *)
Definition _generate_executive_summary `{Runtime}
    (data : pydict) (llm : outcome pystr) : outcome pyval :=
  try_except
    (let analysis := dict_get data (u "analysis") (VDict []) in
     _ <- len (dict_get data (u "articles") (VList [])) ;;
     _ <- get analysis (u "overall_analysis") (VDict []) ;;
     _ <- get analysis (u "key_points") (VList []) ;;
     response <- llm ;;
     loads_or response (summary_with []))
    (fun _ => Return (summary_with (u "Summary generation failed"))).

Definition empty_detailed_analysis : pyval :=
  VDict [ (u "topic_analysis", VDict []);
          (u "source_analysis", VDict []);
          (u "narrative_analysis", VDict []);
          (u "fact_check_summary", VDict []) ].

(** What the loop over [fact_check_results] collects. *)
Record claims := Claims {
  verified_claims : list pyval;
  unverified_claims : list pyval;
  credibility_scores : list pyval
}.

(** One turn of that loop. *)
Definition collect_one `{Runtime} (result : pyval) (c : claims) : outcome claims :=
  if is_dict result then
    verification <- get result (u "verification_results") (VDict []) ;;
    v_raw <- get verification (u "verified_claims") (VList []) ;;
    v <- iterate v_raw ;;
    u_raw <- get verification (u "unverified_claims") (VList []) ;;
    un <- iterate u_raw ;;
    cred <- get verification (u "credibility_assessment") (VDict []) ;;
    let c := Claims (verified_claims c ++ v) (unverified_claims c ++ un)
                    (credibility_scores c) in
    if is_dict cred then
      sc_raw <- get cred (u "source_credibility") (VInt 0) ;;
      sc <- float sc_raw ;;
      eq_raw <- get cred (u "evidence_quality") (VInt 0) ;;
      eq <- float eq_raw ;;
      orl_raw <- get cred (u "overall_reliability") (VInt 0) ;;
      orl <- float orl_raw ;;
      Return (Claims (verified_claims c) (unverified_claims c)
                (credibility_scores c ++
                 [VDict [ (u "source_credibility", VFloat sc);
                          (u "evidence_quality", VFloat eq);
                          (u "overall_reliability", VFloat orl) ]]))
    else Return c
  else Return c.

Fixpoint collect `{Runtime} (fact_check_results : list pyval) (c : claims)
    : outcome claims :=
  match fact_check_results with
  | [] => Return c
  | result :: rest => c' <- collect_one result c ;; collect rest c'
  end.

Definition _generate_detailed_analysis `{Runtime}
    (data : pydict) (llm : outcome pystr) : outcome pyval :=
  try_except
    (fact_check_results <- iterate (dict_get data (u "fact_check_results") (VList [])) ;;
     _ <- collect fact_check_results (Claims [] [] []) ;;
     response <- llm ;;
     loads_or response empty_detailed_analysis)
    (fun _ => Return empty_detailed_analysis).

Definition _generate_recommendations `{Runtime}
    (data : pydict) (report : pydict) (llm : outcome pystr) : outcome pyval :=
  try_except
    (response <- llm ;;
     try_except
       (recommendations <- json_loads response ;;
        if negb (is_list recommendations) then Return (VList [])
        else Return recommendations)
       (fun e => if is_JSONDecodeError e then Return (VList []) else Raise e))
    (fun _ => Return (VList [])).

(** The report of the [except] block of [process]. *)
Definition failure_report : pyval :=
  VDict [ (u "executive_summary", summary_with (u "Report generation failed"));
          (u "detailed_analysis", VDict []);
          (u "metadata", VDict []);
          (u "recommendations", VList []) ].

(** The [try] block of [process]; [llm1], [llm2], [llm3] are what the calls
    of the three sub-steps do. *)
Definition process_body `{Runtime} (data : pydict)
    (llm1 llm2 llm3 : outcome pystr) : outcome pyval :=
  executive_summary <- _generate_executive_summary data llm1 ;;
  detailed_analysis <- _generate_detailed_analysis data llm2 ;;
  total_articles <- len (dict_get data (u "articles") (VList [])) ;;
  let report :=
    [ (u "executive_summary", executive_summary);
      (u "detailed_analysis", detailed_analysis);
      (u "metadata",
        VDict [ (u "total_articles", VInt (Z.of_nat total_articles));
                (u "analysis_timestamp", dict_get data (u "timestamp") (VStr []));
                (u "topic", dict_get data (u "topic") (VStr [])) ]) ] in
  recommendations <- _generate_recommendations data report llm3 ;;
  Return (VDict (dict_set report (u "recommendations") recommendations)).

Definition process `{Runtime} (data : pydict)
    (llm1 llm2 llm3 : outcome pystr) : outcome pyval :=
  try_except (process_body data llm1 llm2 llm3)
             (fun _ => Return failure_report).

End ReportAgent.

(* ===================================================================== *)
(** * news_research_coordinator_light.py *)
(* ===================================================================== *)

Module Coordinator.

(** The four agents of the repository and the two steps of rendering. *)
Inductive stage := Search | Analysis | Verification | Synthesis | Format | Save.

(** A stage invoked, with the value handed to it. *)
Record call := Call { call_stage : stage; call_input : pyval }.

(** What [research_topic] works with: the [process] of each agent it holds,
    [_format_report_markdown] and [_save_report], and the clock, [now n] being
    the [n]-th reading of [datetime.now().isoformat()]. *)
Record collaborators := Collaborators {
  search_agent : pyval -> outcome pyval;
  analysis_agent : pyval -> outcome pyval;
  report_agent : pyval -> outcome pyval;
  _format_report_markdown : pyval -> pystr -> outcome pystr;
  _save_report : pystr -> pystr -> outcome pystr;
  now : nat -> pystr
}.

(** The calls made so far and the number of clock readings. *)
Record world := World { trace : list call; readings : nat }.

Definition prog (A : Type) := world -> world * outcome A.

Definition ret {A} (a : A) : prog A := fun w => (w, Return a).

Definition pbind {A B} (m : prog A) (k : A -> prog B) : prog B :=
  fun w => match m w with
           | (w', Return a) => k a w'
           | (w', Raise e) => (w', Raise e)
           end.

(** [try: m  except Exception as e: h e] *)
Definition ptry {A} (m : prog A) (h : exn -> prog A) : prog A :=
  fun w => match m w with
           | (w', Return a) => (w', Return a)
           | (w', Raise e) => h e w'
           end.

(** Invoking a stage records the call, then does what the stage does. *)
Definition invoke {A} (st : stage) (input : pyval) (r : outcome A) : prog A :=
  fun w => (World (trace w ++ [Call st input]) (readings w), r).

(** [datetime.now().isoformat()] *)
Definition timestamp (c : collaborators) : prog pystr :=
  fun w => (World (trace w) (S (readings w)), Return (now c (readings w))).

(** [not v] is false for these. *)
Definition truthy (v : pyval) : bool :=
  match v with
  | VNone => false
  | VBool b => b
  | VInt z => negb (Z.eqb z 0)
  | VFloat (Finite q) => negb (Qeq_bool q 0)
  | VFloat _ => true
  | VStr s => negb (Nat.eqb (length s) 0)
  | VList l => negb (Nat.eqb (length l) 0)
  | VDict d => negb (Nat.eqb (length d) 0)
  end.

Definition no_articles_report (topic ts : pystr) : pyval :=
  VDict [ (u "error", VStr (u "No articles found"));
          (u "topic", VStr topic);
          (u "timestamp", VStr ts);
          (u "executive_summary",
            VDict [(u "main_findings", VStr (u "No articles found for the given topic"))]);
          (u "detailed_analysis", VDict []);
          (u "recommendations", VList []) ].

Definition error_report `{Runtime} (topic : pystr) (e : exn) (ts : pystr) : pyval :=
  VDict [ (u "error", VStr (exn_str e));
          (u "topic", VStr topic);
          (u "timestamp", VStr ts);
          (u "executive_summary",
            VDict [(u "main_findings", VStr (u "Error occurred: " ++ exn_str e))]);
          (u "detailed_analysis", VDict []);
          (u "recommendations", VList []) ].

Definition report_data (topic ts : pystr) (articles analysis_results : pyval) : pyval :=
  VDict [ (u "topic", VStr topic);
          (u "timestamp", VStr ts);
          (u "articles", articles);
          (u "analysis", analysis_results) ].

Definition query (topic : pystr) (time_range : pyval) : pyval :=
  VDict [ (u "topic", VStr topic); (u "time_range", time_range) ].

(** The [try] block of [research_topic]. *)
Definition research_body (c : collaborators) (topic : pystr) (time_range : pyval)
    : prog pyval :=
  let q := query topic time_range in
  pbind (invoke Search q (search_agent c q)) (fun articles =>
  if negb (truthy articles) then
    pbind (timestamp c) (fun ts => ret (no_articles_report topic ts))
  else
    pbind (invoke Analysis articles (analysis_agent c articles))
      (fun analysis_results =>
    pbind (timestamp c) (fun ts =>
    let data := report_data topic ts articles analysis_results in
    pbind (invoke Synthesis data (report_agent c data)) (fun final_report =>
    pbind (invoke Format final_report (_format_report_markdown c final_report topic))
      (fun md_content =>
    pbind (invoke Save (VStr md_content) (_save_report c md_content topic))
      (fun _ => ret final_report)))))).

Definition research_topic `{Runtime} (c : collaborators) (topic : pystr)
    (time_range : pyval) : prog pyval :=
  ptry (research_body c topic time_range)
       (fun e => pbind (timestamp c) (fun ts => ret (error_report topic e ts))).

Definition idle : world := World [] 0.

(** The stages [research_topic] invoked, in order. *)
Definition stages_of (w : world) : list stage := map call_stage (trace w).

End Coordinator.

(* ===================================================================== *)
(** * Sample data *)
(* ===================================================================== *)

Module Samples.

Fixpoint assoc {A} (k : pystr) (table : list (pystr * A)) : option A :=
  match table with
  | [] => None
  | (k', v) :: rest => if pystr_eqb k' k then Some v else assoc k rest
  end.

Fixpoint digits (acc : Z) (s : pystr) : option Z :=
  match s with
  | [] => Some acc
  | c :: t =>
      if ((48 <=? c) && (c <=? 57))%N
      then digits (10 * acc + Z.of_N (c - 48)) t
      else None
  end.

(** [int(s)] on a string of decimal digits; any other string used below is
    no integer literal. *)
Definition decimal (s : pystr) : option Z :=
  match s with
  | [] => None
  | _ :: _ => digits 0 s
  end.

(** A runtime for the examples: [decoded] lists the texts that are JSON with
    the value [json.loads] gives for each, [floats] the strings [float]
    accepts, [reprs] the strings whose [repr] is needed.  The sorting of NaN
    keys is left out: no example has a score that is NaN. *)
Definition runtime (decoded : list (pystr * pyval)) (floats : list (pystr * Q))
    (reprs : list (pystr * pystr)) : Runtime :=
  {| json_loads := fun s =>
       match assoc s decoded with
       | Some v => Return v
       | None => Raise (Exn JSONDecodeError (u "Expecting value"))
       end;
     int_of_str := decimal;
     float_of_str := fun s => option_map Finite (assoc s floats);
     repr := fun v =>
       match v with
       | VStr s => match assoc s reprs with Some r => r | None => [] end
       | _ => []
       end;
     sort_unordered := fun _ _ l => l;
     sort_unordered_perm := fun _ _ l => Permutation_refl l |}.

Definition article (title url : string) : pydict :=
  [ (u "title", VStr (u title));
    (u "description", VStr (u "text"));
    (u "url", VStr (u url));
    (u "source", VDict [(u "name", VStr (u "Daily"))]);
    (u "publishedAt", VStr (u "2025-05-18"));
    (u "content", VStr (u "body")) ].

Definition three_articles : list pydict :=
  [ article "zero" "http://a/0"; article "one" "http://a/1";
    article "two" "http://a/2" ].

Definition ranked (id : Z) (score : Q) : pyval :=
  VDict [ (u "id", VInt id); (u "relevance_score", VFloat score);
          (u "explanation", VStr (u "why")) ].

(** The ranked ids [2, 0, 5, 0]. *)
Definition ranked_2050 : list pyval :=
  [ ranked 2 (9 # 10); ranked 0 (8 # 10); ranked 5 (7 # 10); ranked 0 (6 # 10) ].

(** A JSON string literal: the text between double quotes. *)
Definition quoted (s : string) : pystr := [34%N] ++ u s ++ [34%N].

Definition ranked_text (id score : string) : pystr :=
  u "{" ++ quoted "id" ++ u ": " ++ u id ++ u ", "
  ++ quoted "relevance_score" ++ u ": " ++ u score ++ u ", "
  ++ quoted "explanation" ++ u ": " ++ quoted "why" ++ u "}".

(** The text of the LLM that ranks the ids [2, 0, 5, 0]. *)
Definition ranking_text : pystr :=
  u "{" ++ quoted "ranked_articles" ++ u ": ["
  ++ ranked_text "2" "0.9" ++ u ", " ++ ranked_text "0" "0.8" ++ u ", "
  ++ ranked_text "5" "0.7" ++ u ", " ++ ranked_text "0" "0.6" ++ u "]}".

Definition ranking_runtime : Runtime :=
  runtime [(ranking_text, VDict [(u "ranked_articles", VList ranked_2050)])] [] [].


End Samples.

(* ===================================================================== *)
(** * Vocabulary of the properties *)
(* ===================================================================== *)

Module Ranking.

Import SearchAgent.

(** The copy of [article] with the two fields [_rank_articles] adds. *)
Definition attach (article : pydict) (score : pyfloat) (explanation : pyval)
    : pydict :=
  dict_set (dict_set article (u "relevance_score") (VFloat score))
           (u "ranking_explanation") explanation.






End Ranking.

Module Alignment.

Import AnalysisAgent.

(** What one document adds to the five lists. *)
Record contribution := Contribution {
  c_summary : pyval;
  c_key_points : list pyval;
  c_sentiment : pyval;
  c_topics : list pyval;
  c_bias : pyval
}.

Definition failure_contribution : contribution :=
  Contribution failed [failed] failed_sentiment [VStr (u "Unknown")] failed_bias.

(** The analysis of a document either raises, or cannot even give its
    summary, or gives all five fields with key points and topics that can be
    iterated over. *)
Inductive contributes : outcome pyval -> contribution -> Prop :=
| contributes_raised e :
    contributes (Raise e) failure_contribution
| contributes_no_summary analysis e :
    getitem analysis (u "summary") = Raise e ->
    contributes (Return analysis) failure_contribution
| contributes_complete d summary kp kps sentiment tp tps bias :
    dict_lookup d (u "summary") = Some summary ->
    dict_lookup d (u "key_points") = Some kp -> iterate kp = Return kps ->
    dict_lookup d (u "sentiment") = Some sentiment ->
    dict_lookup d (u "topics") = Some tp -> iterate tp = Return tps ->
    dict_lookup d (u "bias") = Some bias ->
    contributes (Return (VDict d)) (Contribution summary kps sentiment tps bias).

(** What one document adds to [r]. *)
Definition add_contribution (r : results) (c : contribution) : results :=
  Results (summaries r ++ [c_summary c]) (key_points r ++ c_key_points c)
          (sentiment r ++ [c_sentiment c]) (topics r ++ c_topics c)
          (biases r ++ [c_bias c]).

(** The analyses of the documents, in input order. *)
Fixpoint analyses_from `{Runtime} (i : nat) (articles : list pydict)
    (llm : nat -> outcome pystr) : list (outcome pyval) :=
  match articles with
  | [] => []
  | article :: rest =>
      _analyze_article article (llm i) :: analyses_from (S i) rest llm
  end.

(** A text with a summary and nothing else, and a text with two key points. *)
Definition summary_only_text : pystr :=
  u "{" ++ Samples.quoted "summary" ++ u ": " ++ Samples.quoted "S" ++ u "}".

Definition summary_only : pyval := VDict [(u "summary", VStr (u "S"))].

Definition two_points_text : pystr :=
  u "{" ++ Samples.quoted "summary" ++ u ": " ++ Samples.quoted "S" ++ u ", "
  ++ Samples.quoted "key_points" ++ u ": [" ++ Samples.quoted "p"
  ++ u ", " ++ Samples.quoted "q" ++ u "], "
  ++ Samples.quoted "sentiment" ++ u ": {" ++ Samples.quoted "score" ++ u ": 1}, "
  ++ Samples.quoted "topics" ++ u ": [], "
  ++ Samples.quoted "bias" ++ u ": {}}".

Definition two_points : pyval :=
  VDict [ (u "summary", VStr (u "S"));
          (u "key_points", VList [VStr (u "p"); VStr (u "q")]);
          (u "sentiment", VDict [(u "score", VInt 1)]);
          (u "topics", VList []);
          (u "bias", VDict []) ].

Definition analysis_runtime : Runtime :=
  Samples.runtime [(summary_only_text, summary_only); (two_points_text, two_points)]
                  [] [].

End Alignment.

Module Scheduling.

Import FactCheckAgent.

Definition finished (t : task) : Prop := exists r, t = Finished r.

(** What a task of [article] can be: waiting, or suspended on the call that
    [process_article] makes, or finished with a result that carries the
    article. *)
Inductive task_of `{Runtime} (article : pydict) : task -> Prop :=
| task_waiting : task_of article Waiting
| task_calling k :
    process_article article = AwaitLLM k -> task_of article (Calling k)
| task_finished verification :
    task_of article (Finished (Return (fact_check_result article verification))).

(** 1 for a task whose call is in flight. *)
Definition calling (t : task) : nat :=
  match t with Calling _ => 1 | _ => 0 end.

(** The invariant of the event loop: the free slots and the calls in flight
    add up to the limit, and the tasks are tasks of the articles, in order. *)
Definition sound `{Runtime} (articles : list pydict) (p : pool) : Prop :=
  semaphore p + in_flight (tasks p) = max_concurrent
  /\ Forall2 task_of articles (tasks p).



(** A result of [process] that belongs to [article]. *)
Definition carries (article : pydict) (result : pyval) : Prop :=
  exists verification, result = fact_check_result article verification.




(** The task an event is about. *)
Definition event_task (ev : event) : nat :=
  match ev with Acquire i => i | Complete i _ => i end.


Definition four_articles : list pydict :=
  Samples.three_articles ++ [Samples.article "three" "http://a/3"].

Definition transport_error : exn :=
  Exn (OtherException (u "APIConnectionError")) (u "Connection error.").

(** A verification of the LLM with a summary only, and an LLM whose call for
    the first article fails in transport, whose answer for the second is
    that verification and whose answer for the others is no JSON. *)
Definition verified_text : pystr :=
  u "{" ++ Samples.quoted "verification_summary" ++ u ": "
  ++ Samples.quoted "ok" ++ u "}".

Definition verification_runtime : Runtime :=
  Samples.runtime
    [(verified_text, VDict [(u "verification_summary", VStr (u "ok"))])] [] [].

Definition sample_llm (i : nat) : outcome pystr :=
  match i with
  | 0 => Raise transport_error
  | 1 => Return verified_text
  | _ => Return (u "I cannot verify this.")
  end.

End Scheduling.

Module Runs.

Import Coordinator.

(** The stages of a complete run of [research_topic], in order. *)
Definition pipeline : list stage := [Search; Analysis; Synthesis; Format; Save].

(** The sequence of four agents the specification describes. *)
Definition four_agents : list stage := [Search; Analysis; Verification; Synthesis].

Definition sample_analysis : pyval :=
  VDict (AnalysisAgent.results_dict AnalysisAgent.empty_results
           AnalysisAgent._get_default_overall_analysis).

Definition sample_clock (n : nat) : pystr :=
  match n with
  | 0 => u "2025-05-19T10:00:00"
  | _ => u "2025-05-19T10:00:05"
  end.

(** Collaborators that all succeed: the search finds three documents. *)
Definition sample_collaborators : collaborators :=
  {| search_agent := fun _ => Return (VList (map VDict Samples.three_articles));
     analysis_agent := fun _ => Return sample_analysis;
     report_agent := fun _ => Return ReportAgent.failure_report;
     _format_report_markdown := fun _ _ => Return (u "# Research Report");
     _save_report := fun _ _ => Return (u "reports/AI_2025-05-19_100005.md");
     now := sample_clock |}.


(** A report input without a list of articles, and a response that is JSON
    but no array. *)
Definition data_without_articles : pydict :=
  [ (u "topic", VStr (u "AI")); (u "articles", VNone) ].

Definition object_text : pystr :=
  u "{" ++ Samples.quoted "recommendation" ++ u ": " ++ Samples.quoted "read" ++ u "}".

Definition report_runtime : Runtime :=
  Samples.runtime
    [(object_text, VDict [(u "recommendation", VStr (u "read"))])] [] [].

End Runs.

(* ===================================================================== *)
(** * agents/search_agent.py: fetching, and the stage as a whole *)
(* ===================================================================== *)

Module NewsSource.

(** What [_fetch_articles] calls outside the repository: the clock
    ([default_window] is the pair of [isoformat()] of seven days ago and of
    now), [datetime.fromisoformat(x).isoformat()], which raises on what is no
    ISO date, and [NewsApiClient.get_everything] with its [q], [from_param]
    and [to]. *)
Class Provider := {
  default_window : pystr * pystr;
  fromisoformat : pyval -> outcome pystr;
  get_everything : pyval -> pystr -> pystr -> outcome pyval
}.

(** The [processed_article] built for one article of the provider. *)
Definition normalize (article : pyval) : outcome pydict :=
  title <- get article (u "title") (VStr []) ;;
  description <- get article (u "description") (VStr []) ;;
  url <- get article (u "url") (VStr []) ;;
  source <- get article (u "source") (VDict []) ;;
  name <- get source (u "name") (VStr (u "Unknown Source")) ;;
  publishedAt <- get article (u "publishedAt") (VStr []) ;;
  content <- get article (u "content") (VStr []) ;;
  Return [ (u "title", title);
           (u "description", description);
           (u "url", url);
           (u "source", VDict [(u "name", name)]);
           (u "publishedAt", publishedAt);
           (u "content", content) ].

(** The loop over [response['articles']]. *)
Fixpoint normalize_all (items : list pyval) : outcome (list pydict) :=
  match items with
  | [] => Return []
  | article :: rest =>
      processed_article <- normalize article ;;
      articles <- normalize_all rest ;;
      Return (processed_article :: articles)
  end.

(** The date range: the last seven days unless the query has the key
    ['time_range']. *)
Definition date_range `{Provider} (query : pydict) : outcome (pystr * pystr) :=
  match dict_lookup query (u "time_range") with
  | None => Return default_window
  | Some time_range =>
      start <- getitem time_range (u "start") ;;
      start_date <- fromisoformat start ;;
      stop <- getitem time_range (u "end") ;;
      end_date <- fromisoformat stop ;;
      Return (start_date, end_date)
  end.

(** The [try] block of [_fetch_articles]. *)
Definition fetch_body `{Provider} (query : pydict) : outcome (list pydict) :=
  range <- date_range query ;;
  topic <- getitem (VDict query) (u "topic") ;;
  response <- get_everything topic (fst range) (snd range) ;;
  listed <- getitem response (u "articles") ;;
  items <- iterate listed ;;
  normalize_all items.

Definition _fetch_articles `{Provider} (query : pydict) : outcome (list pydict) :=
  try_except (fetch_body query) (fun _ => Return []).

(** [SearchAgent.process] on a query: fetch, then rank with what the LLM does
    on the evaluation prompt. *)
Definition search `{Runtime} `{Provider}
    (query : pydict) (llm : outcome pystr) : outcome (list pydict) :=
  raw_articles <- _fetch_articles query ;;
  Return (SearchAgent.process raw_articles llm).

(** The search agent as the coordinator holds it; the coordinator hands it a
    dict. *)
Definition search_stage `{Runtime} `{Provider}
    (llm : outcome pystr) (query : pyval) : outcome pyval :=
  match query with
  | VDict q => articles <- search q llm ;; Return (VList (map VDict articles))
  | _ => Return (VList [])
  end.

(** An article has the six fields, its source being a dict with a name. *)
Definition normalized (article : pydict) : Prop :=
  exists title description url name publishedAt content,
    article = [ (u "title", title);
                (u "description", description);
                (u "url", url);
                (u "source", VDict [(u "name", name)]);
                (u "publishedAt", publishedAt);
                (u "content", content) ].

(** A provider for the examples: it knows no date and answers every request
    with [response]. *)
Definition answering (response : outcome pyval) : Provider :=
  {| default_window := (u "2025-05-12T10:00:00", u "2025-05-19T10:00:00");
     fromisoformat := fun x =>
       match x with
       | VStr _ => Raise (Exn ValueError (u "Invalid isoformat string"))
       | _ => Raise (Exn TypeError (u "fromisoformat: argument must be str"))
       end;
     get_everything := fun _ _ _ => response |}.

Definition raw_article (title : string) : pyval :=
  VDict [ (u "source", VDict [(u "id", VNone); (u "name", VStr (u "Daily"))]);
          (u "author", VStr (u "A. Writer"));
          (u "title", VStr (u title));
          (u "description", VNone);
          (u "url", VStr (u "http://a/0")) ].

Definition two_raw : pyval :=
  VDict [ (u "status", VStr (u "ok"));
          (u "articles", VList [raw_article "zero"; raw_article "one"]) ].

End NewsSource.

(* ===================================================================== *)
(** * news_research_coordinator_light.py: the name of the report file *)
(* ===================================================================== *)

Module Rendering.

(** [str.isalnum] on one character: letters and digits below 128, and what
    Unicode says above. *)
Class Unicode := { isalnum_above : N -> bool }.

Definition isalnum `{Unicode} (c : N) : bool :=
  (if c <? 128
   then (48 <=? c) && (c <=? 57) || (65 <=? c) && (c <=? 90)
        || (97 <=? c) && (c <=? 122)
   else isalnum_above c)%N.

(** [c.isalnum() or c in (' ', '-', '_')] *)
Definition kept_in_name `{Unicode} (c : N) : bool :=
  (isalnum c || (c =? 32) || (c =? 45) || (c =? 95))%N.

(** [s.replace(' ', '_')] *)
Definition spaces_to_underscores (s : pystr) : pystr :=
  map (fun c => if (c =? 32)%N then 95%N else c) s.

(** [clean_topic] of [_save_report]. *)
Definition clean_topic `{Unicode} (topic : pystr) : pystr :=
  spaces_to_underscores (strip (filter kept_in_name topic)).

(** [filename] of [_save_report]; [timestamp] is
    [datetime.now().strftime("%Y-%m-%d_%H%M%S")]. *)
Definition filename `{Unicode} (topic timestamp : pystr) : pystr :=
  u "reports/" ++ clean_topic topic ++ u "_" ++ timestamp ++ u ".md".

(** Letters and digits only below 128. *)
Definition ascii_only : Unicode := {| isalnum_above := fun _ => false |}.

(** What [_save_report] calls outside the repository: [os.makedirs] with
    [exist_ok=True], and opening a file for writing and writing to it. *)
Class FileSystem := {
  makedirs : pystr -> outcome unit;
  write_text : pystr -> pystr -> outcome unit
}.

(** [_save_report]; [timestamp] is as for [filename]. *)
Definition _save_report `{Unicode} `{FileSystem}
    (timestamp : pystr) (content topic : pystr) : outcome pystr :=
  _ <- makedirs (u "reports") ;;
  let filename := filename topic timestamp in
  _ <- write_text filename content ;;
  Return filename.

(** A file system on which every write succeeds. *)
Definition writable : FileSystem :=
  {| makedirs := fun _ => Return tt; write_text := fun _ _ => Return tt |}.

(** The end of a line. *)
Definition nl : pystr := [10%N].

(** [for x in v: md_content += f"- {x}\n"] *)
Definition bullets `{Runtime} (v : pyval) : outcome pystr :=
  items <- iterate v ;;
  Return (concat (map (fun x => u "- " ++ str x ++ nl) items)).

(** [md_content += v]: only a [str] can be added to a [str]. *)
Definition text_of (v : pyval) : outcome pystr :=
  match v with
  | VStr s => Return s
  | _ => Raise (Exn TypeError (u "can only concatenate str to str"))
  end.

(** The three lines of one recommendation. *)
Definition recommendation_lines `{Runtime} (rec : pyval) : outcome pystr :=
  priority <- getitem rec (u "priority") ;;
  recommendation <- getitem rec (u "recommendation") ;;
  rationale <- getitem rec (u "rationale") ;;
  Return (nl ++ u "### " ++ str priority ++ u " Priority" ++ nl
          ++ u "**Recommendation**: " ++ str recommendation ++ nl ++ nl
          ++ u "**Rationale**: " ++ str rationale ++ nl).

Fixpoint recommendations_lines `{Runtime} (recs : list pyval) : outcome pystr :=
  match recs with
  | [] => Return []
  | rec :: rest =>
      lines <- recommendation_lines rec ;;
      more <- recommendations_lines rest ;;
      Return (lines ++ more)
  end.

(** [_format_report_markdown]; [timestamp] is
    [datetime.now().strftime("%Y-%m-%d %H:%M:%S")]. *)
Definition _format_report_markdown `{Runtime}
    (timestamp : pystr) (report : pyval) (topic : pystr) : outcome pystr :=
  summary <- getitem report (u "executive_summary") ;;
  main_findings <- getitem summary (u "main_findings") ;;
  key_trends <- (v <- get summary (u "key_trends") (VList []) ;; bullets v) ;;
  critical_insights <-
    (v <- get summary (u "critical_insights") (VList []) ;; bullets v) ;;
  reliability <-
    (v <- get summary (u "reliability_assessment")
            (VStr (u "No reliability assessment available.")) ;;
     text_of v) ;;
  detailed <- get report (u "detailed_analysis") (VDict []) ;;
  topic_analysis <- get detailed (u "topic_analysis") (VDict []) ;;
  main_topics <- (v <- get topic_analysis (u "main_topics") (VList []) ;; bullets v) ;;
  topic_relationships <-
    (v <- get topic_analysis (u "topic_relationships") (VList []) ;; bullets v) ;;
  emerging_themes <-
    (v <- get topic_analysis (u "emerging_themes") (VList []) ;; bullets v) ;;
  source_analysis <- get detailed (u "source_analysis") (VDict []) ;;
  source_distribution <-
    get source_analysis (u "source_distribution") (VStr (u "Not available")) ;;
  credibility_assessment <-
    get source_analysis (u "credibility_assessment") (VStr (u "Not available")) ;;
  potential_biases <-
    (v <- get source_analysis (u "potential_biases") (VList []) ;; bullets v) ;;
  recommendations <-
    (v <- get report (u "recommendations") (VList []) ;;
     recs <- iterate v ;;
     recommendations_lines recs) ;;
  Return (u "# Research Report: " ++ topic ++ nl
          ++ u "Generated on: " ++ timestamp ++ nl ++ nl
          ++ u "## Executive Summary" ++ nl
          ++ str main_findings ++ nl ++ nl
          ++ u "## Key Trends" ++ nl ++ key_trends
          ++ nl ++ u "## Critical Insights" ++ nl ++ critical_insights
          ++ nl ++ u "## Reliability Assessment" ++ nl ++ reliability
          ++ nl ++ nl ++ u "## Detailed Analysis" ++ nl
          ++ nl ++ u "### Topic Analysis" ++ nl
          ++ nl ++ u "#### Main Topics" ++ nl ++ main_topics
          ++ nl ++ u "#### Topic Relationships" ++ nl ++ topic_relationships
          ++ nl ++ u "#### Emerging Themes" ++ nl ++ emerging_themes
          ++ nl ++ u "### Source Analysis" ++ nl
          ++ nl ++ u "**Source Distribution**: " ++ str source_distribution ++ nl
          ++ nl ++ u "**Credibility Assessment**: " ++ str credibility_assessment ++ nl
          ++ nl ++ u "#### Potential Biases" ++ nl ++ potential_biases
          ++ nl ++ u "## Recommendations" ++ nl ++ recommendations).

End Rendering.

(* ===================================================================== *)
(** * Further vocabulary *)
(* ===================================================================== *)

Module Shapes.

Import FactCheckAgent.

(** A verification as [_verify_article] promises it: two lists of claims,
    three credibility scores that are floats, and a summary that is a
    string. *)
Definition well_formed_verification (v : pyval) : Prop :=
  exists verified unverified sc eq orl summary,
    v = VDict [ (u "verified_claims", VList verified);
                (u "unverified_claims", VList unverified);
                (u "credibility_assessment",
                  VDict [ (u "source_credibility", VFloat sc);
                          (u "evidence_quality", VFloat eq);
                          (u "overall_reliability", VFloat orl) ]);
                (u "verification_summary", VStr summary) ].

(** What the task of [article] ends with when its call to the LLM does
    [llm]. *)
Definition final_result `{Runtime} (article : pydict) (llm : outcome pystr)
    : outcome pyval :=
  match process_article article with
  | Done r => r
  | AwaitLLM k => k llm
  end.

(** The events of a schedule deliver to each task what [llm] says its call
    does. *)
Definition delivers (llm : nat -> outcome pystr) (ev : event) : Prop :=
  match ev with
  | Acquire _ => True
  | Complete i l => l = llm i
  end.

(** A task of the article at position [i] under [llm]. *)
Definition task_under `{Runtime} (llm : nat -> outcome pystr) (i : nat)
    (article : pydict) (t : task) : Prop :=
  match t with
  | Waiting => True
  | Calling k => process_article article = AwaitLLM k
  | Finished r => r = final_result article (llm i)
  end.

(** The report [process] of the report agent builds when nothing raises. *)
Definition report_of (executive_summary detailed_analysis : pyval)
    (total_articles : nat) (data : pydict) (recommendations : pyval) : pyval :=
  VDict [ (u "executive_summary", executive_summary);
          (u "detailed_analysis", detailed_analysis);
          (u "metadata",
            VDict [ (u "total_articles", VInt (Z.of_nat total_articles));
                    (u "analysis_timestamp", dict_get data (u "timestamp") (VStr []));
                    (u "topic", dict_get data (u "topic") (VStr [])) ]);
          (u "recommendations", recommendations) ].

(** The text fails to clean or to decode. *)
Definition undecodable `{Runtime} (response : pystr) : Prop :=
  raises (cleaned <- BaseAgent._clean_json_response response ;; json_loads cleaned).

(** An article of the provider that [_fetch_articles] can process: a dict
    whose ['source'], when there is one, is a dict. *)
Definition well_sourced (item : pyval) : bool :=
  match item with
  | VDict d => is_dict (dict_get d (u "source") (VDict []))
  | _ => false
  end.

(** The dict [process_article] builds for [article] around a well-formed
    verification. *)
Definition fact_checked (article : pydict) (result : pyval) : Prop :=
  exists verification,
    result = fact_check_result article verification
    /\ well_formed_verification verification.

(** What can be read in a result of [process] of the fact checker for
    [article]: the article under [article_data], its url under
    [article_url], and a well-formed verification under
    [verification_results]. *)
Definition verified_result (article : pydict) (result : pyval) : Prop :=
  getitem result (u "article_data") = Return (VDict article)
  /\ getitem result (u "article_url")
     = Return (dict_get article (u "url") (VStr []))
  /\ exists verification,
       getitem result (u "verification_results") = Return verification
       /\ well_formed_verification verification.

(** A task of [article] whose result, once it has one, is such a dict. *)
Definition task_shaped `{Runtime} (article : pydict) (t : task) : Prop :=
  match t with
  | Waiting => True
  | Calling k => process_article article = AwaitLLM k
  | Finished r => exists result, r = Return result /\ fact_checked article result
  end.

(** The call to the LLM gives the report agent nothing to decode: it raises,
    or [json.loads] raises on its response. *)
Definition unanswered `{Runtime} (llm : outcome pystr) : Prop :=
  match llm with
  | Raise _ => True
  | Return response => raises (json_loads response)
  end.

(** The characters a cleaned topic is made of. *)
Definition name_character `{Rendering.Unicode} (c : N) : Prop :=
  Rendering.isalnum c = true \/ c = 45%N \/ c = 95%N.

(** Every task of the pool is a task of its article under [llm]. *)
Definition under `{Runtime} (llm : nat -> outcome pystr) (articles : list pydict)
    (p : pool) : Prop :=
  forall i article t,
    nth_error articles i = Some article -> nth_error (tasks p) i = Some t ->
    task_under llm i article t.

End Shapes.

(* ===================================================================== *)
(** * news_research_coordinator_light.py: the coordinator with its agents *)
(* ===================================================================== *)

Module Assembly.

Import Coordinator NewsSource Rendering.

(** The articles as dicts; [.get] on what is no dict raises. *)
Fixpoint all_dicts (items : list pyval) : outcome (list pydict) :=
  match items with
  | [] => Return []
  | VDict d :: rest => ds <- all_dicts rest ;; Return (d :: ds)
  | _ :: _ => Raise (Exn AttributeError (u "object has no attribute 'get'"))
  end.

(** [AnalysisAgent.process] on the value the coordinator hands over: its
    length is taken for the progress bar, and an article that is no dict
    raises once more inside the [except] block of the loop, hence out of
    [process]. *)
Definition analysis_stage `{Runtime} (llm : nat -> outcome pystr)
    (llm_overall : outcome pystr) (articles : pyval) : outcome pyval :=
  _ <- len articles ;;
  items <- iterate articles ;;
  ds <- all_dicts items ;;
  Return (VDict (AnalysisAgent.process ds llm llm_overall)).

(** [ReportAgent.process] on the value the coordinator hands over. *)
Definition report_stage `{Runtime} (llm1 llm2 llm3 : outcome pystr)
    (data : pyval) : outcome pyval :=
  match data with
  | VDict d => ReportAgent.process d llm1 llm2 llm3
  | _ => Return ReportAgent.failure_report
  end.

(** What each call to the LLM does in one run. *)
Record llms := LLMs {
  llm_ranking : outcome pystr;
  llm_article : nat -> outcome pystr;
  llm_overall : outcome pystr;
  llm_summary : outcome pystr;
  llm_details : outcome pystr;
  llm_recommendations : outcome pystr
}.

(** The coordinator as [__init__] assembles it; [stamp_format] and
    [stamp_save] are the two readings of the clock by [strftime]. *)
Definition assembled `{Runtime} `{Provider} `{Unicode} `{FileSystem}
    (l : llms) (clock : nat -> pystr) (stamp_format stamp_save : pystr)
    : collaborators :=
  {| search_agent := search_stage (llm_ranking l);
     analysis_agent := analysis_stage (llm_article l) (llm_overall l);
     report_agent :=
       report_stage (llm_summary l) (llm_details l) (llm_recommendations l);
     Coordinator._format_report_markdown :=
       Rendering._format_report_markdown stamp_format;
     Coordinator._save_report := Rendering._save_report stamp_save;
     now := clock |}.

(** A run in which every call to the LLM raises [e]. *)
Definition unavailable (e : exn) : llms :=
  LLMs (Raise e) (fun _ => Raise e) (Raise e) (Raise e) (Raise e) (Raise e).

(** A provider that takes every string for a date and answers every request
    with [response]. *)
Definition dated (response : outcome pyval) : Provider :=
  {| default_window := (u "2025-05-12T10:00:00", u "2025-05-19T10:00:00");
     fromisoformat := fun x =>
       match x with
       | VStr s => Return s
       | _ => Raise (Exn TypeError (u "fromisoformat: argument must be str"))
       end;
     get_everything := fun _ _ _ => response |}.

Definition last_week : pyval :=
  VDict [ (u "start", VStr (u "2025-05-12")); (u "end", VStr (u "2025-05-19")) ].

End Assembly.

(* ===================================================================== *)
(** * Properties of the structured response parser *)
(* ===================================================================== *)

Import BaseAgent.

Lemma try_except_return {A} (m : outcome A) (h : exn -> outcome A) (a : A) :
  m = Return a -> try_except m h = Return a.
Proof. intros ->. reflexivity. Qed.

Lemma try_except_raise {A} (m : outcome A) (h : exn -> outcome A) (e : exn) :
  m = Raise e -> try_except m h = h e.
Proof. intros ->. reflexivity. Qed.

Lemma is_None_false (v : pyval) : v <> VNone -> is_None v = false.
Proof. destruct v; simpl; congruence. Qed.

(** The cleaning fails exactly when what is left after removing the fences
    and the surrounding white space starts with neither brace nor bracket. *)
Lemma clean_raises_iff (response : pystr) :
  raises (_clean_json_response response) <->
  let cleaned := strip (sub_fence_end (sub_fence_json 0 false response)) in
  startswith (u "{") cleaned = false /\ startswith (u "[") cleaned = false.
Proof.
  unfold _clean_json_response, raises. cbv zeta.
  set (cleaned := strip _).
  destruct (startswith (u "{") cleaned), (startswith (u "[") cleaned); simpl;
    split; intros; try (destruct H as [e H]; discriminate);
    try (destruct H; discriminate); try (split; reflexivity); eauto.
Qed.

(** What [_parse_json_response] does when cleaning or decoding raises [e]. *)
Lemma parse_failure `{Runtime} (response : pystr) (default_value : pyval) (e : exn) :
  (cleaned_response <- _clean_json_response response ;;
   json_loads cleaned_response) = Raise e ->
  _parse_json_response response default_value =
  if is_None default_value then Raise e else Return default_value.
Proof.
  intros Hfail. unfold _parse_json_response. rewrite Hfail. simpl.
  destruct (is_None default_value); reflexivity.
Qed.

(** C2.  Whatever the raw text and whatever the default that is not [None]:
    when removing the fences and checking the leading brace or bracket fails,
    or when the cleaned text is not decoded by [json.loads],
    [_parse_json_response] returns exactly the default, so it neither raises
    nor returns a partly decoded value; without a default ([None]) the same
    exception reaches the caller. *)
Theorem parse_json_response_default `{Runtime}
    (response : pystr) (default_value : pyval) (e : exn) :
  _clean_json_response response = Raise e
  \/ (exists cleaned, _clean_json_response response = Return cleaned
                      /\ json_loads cleaned = Raise e) ->
  (default_value <> VNone ->
   _parse_json_response response default_value = Return default_value)
  /\ _parse_json_response response VNone = Raise e.
Proof.
  intros Hfail.
  assert (Hattempt : (cleaned_response <- _clean_json_response response ;;
                      json_loads cleaned_response) = Raise e).
  { destruct Hfail as [-> | (cleaned & -> & Hloads)]; simpl; auto. }
  split.
  - intros Hdefault. rewrite (parse_failure _ _ _ Hattempt).
    rewrite is_None_false by assumption. reflexivity.
  - rewrite (parse_failure _ _ _ Hattempt). reflexivity.
Qed.

(** The text [Sure! {a}] begins with neither brace nor bracket: with the
    default [{}] the parser returns [{}], without a default it raises. *)
Lemma parse_json_response_default_witness :
  let R := Samples.runtime [] [] [] in
  let e := Exn ValueError (u "Response is not a valid JSON object/array") in
  _clean_json_response (u "Sure! {a}") = Raise e
  /\ _parse_json_response (u "Sure! {a}") (VDict []) = Return (VDict [])
  /\ _parse_json_response (u "Sure! {a}") VNone = Raise e.
Proof.
  intros R e.
  assert (Hclean : _clean_json_response (u "Sure! {a}") = Raise e) by reflexivity.
  destruct (@parse_json_response_default R (u "Sure! {a}") (VDict []) e
              (or_introl Hclean)) as [Hdefault Hnone].
  split; [exact Hclean | split; [apply Hdefault; discriminate | exact Hnone]].
Defined.

(** A text that passes the cleaning and that [json.loads] rejects. *)
Example parse_undecodable :
  let R := Samples.runtime [] [] [] in
  _parse_json_response (u "```json {a: 1} ```") (VList []) = Return (VList [])
  /\ raises (_parse_json_response (u "```json {a: 1} ```") VNone).
Proof. split; [reflexivity | eexists; reflexivity]. Qed.

(* ===================================================================== *)
(** * Properties of the ranking of articles *)
(* ===================================================================== *)

Import SearchAgent Ranking.








Lemma feq_bool_fle (a b q : pyfloat) :
  feq_bool a q = true -> feq_bool b q = true -> fle_bool b a = true.
Proof.
  destruct a as [p|[|]|], b as [r|[|]|], q as [t|[|]|]; simpl;
    try discriminate; try reflexivity.
  rewrite !Qeq_bool_iff, Qle_bool_iff. intros Hp Hr. rewrite Hp, Hr.
  apply Qle_refl.
Qed.


Lemma insert_desc_perm (x : pydict) (l : list pydict) :
  Permutation (x :: l) (insert_desc x l).
Proof.
  induction l as [|y l IH]; simpl; [reflexivity|].
  destruct (fle_bool (sort_key y) (sort_key x)); [reflexivity|].
  rewrite perm_swap. constructor. exact IH.
Qed.

Lemma stable_desc_perm (l : list pydict) : Permutation l (stable_desc l).
Proof.
  induction l as [|x l IH]; simpl; [constructor|].
  rewrite <- insert_desc_perm. constructor. exact IH.
Qed.

(** Whatever the keys, sorting rearranges the list. *)
Lemma sort_desc_perm `{Runtime} (l : list pydict) : Permutation l (sort_desc l).
Proof.
  unfold sort_desc. destruct (unordered l).
  - apply sort_unordered_perm.
  - apply stable_desc_perm.
Qed.





Lemma rank_articles_cases `{Runtime} (articles : list pydict) (llm : outcome pystr) :
  _rank_articles articles llm = firstn MAX_ARTICLES_PER_SEARCH articles
  \/ exists survivors,
       survivors <> []
       /\ ranked_survivors articles llm = Return survivors
       /\ _rank_articles articles llm = sort_desc survivors.
Proof.
  unfold _rank_articles.
  destruct articles as [|a articles]; [left; reflexivity|].
  destruct (articles_for_evaluation 0 (a :: articles)); [left; reflexivity|].
  destruct (ranked_survivors (a :: articles) llm) as [[|r rs]|e];
    [left; reflexivity | | left; reflexivity].
  right. exists (r :: rs). repeat split; congruence.
Qed.





(* ===================================================================== *)
(** * Properties of the per-article analysis *)
(* ===================================================================== *)

Import AnalysisAgent Alignment.

Lemma analyze_one_contribution `{Runtime} (article : pydict) (llm : outcome pystr)
    (c : contribution) (r : results) :
  contributes (_analyze_article article llm) c ->
  analyze_one article llm r = add_contribution r c.
Proof.
  unfold analyze_one. intros Hc.
  inversion Hc as [e He | analysis e Hsum He | d s kp kps se tp tps b
                     Hs Hkp Hkps Hse Htp Htps Hb He]; subst; clear Hc.
  - reflexivity.
  - unfold record_analysis, seq, update, one. rewrite Hsum. reflexivity.
  - unfold record_analysis, seq, update, one, getitem.
    rewrite Hs, Hkp, Hse, Htp, Hb. simpl. rewrite Hkps, Htps. reflexivity.
Qed.

Lemma analyze_from_contributions `{Runtime} (articles : list pydict)
    (llm : nat -> outcome pystr) :
  forall i cs r,
  Forall2 contributes (analyses_from i articles llm) cs ->
  analyze_from i articles llm r =
  Results (summaries r ++ map c_summary cs)
          (key_points r ++ concat (map c_key_points cs))
          (sentiment r ++ map c_sentiment cs)
          (topics r ++ concat (map c_topics cs))
          (biases r ++ map c_bias cs).
Proof.
  induction articles as [|article rest IH]; intros i cs r Hcs; simpl in *.
  - inversion Hcs; subst. simpl. rewrite !app_nil_r. destruct r; reflexivity.
  - inversion Hcs as [|o c os cs' Hc Hrest]; subst.
    rewrite (analyze_one_contribution _ _ _ r Hc), (IH _ _ _ Hrest).
    unfold add_contribution; simpl. rewrite <- !app_assoc. reflexivity.
Qed.

Lemma analyses_from_length `{Runtime} (articles : list pydict)
    (llm : nat -> outcome pystr) :
  forall i, length (analyses_from i articles llm) = length articles.
Proof. induction articles; intros i; simpl; auto. Qed.

(** C4: the code at the failing input.  One document whose analysis has a
    summary and no key points: the summary is recorded, then the lookup of
    the key points raises and the handler records the placeholders on top of
    it, so [summaries] has two entries for one document while [sentiment] and
    [biases] have one. *)
Theorem analysis_partial_failure_misaligns :
  let R := analysis_runtime in
  let r := analyze_all [Samples.article "zero" "http://a/0"]
                       (fun _ => Return summary_only_text) in
  summaries r = [VStr (u "S"); failed]
  /\ length (summaries r) = 2
  /\ length (sentiment r) = 1
  /\ length (biases r) = 1.
Proof. cbv zeta. repeat split. Qed.

(** C5 against the code: one document whose analysis has two key points;
    [key_points] has two entries for one document. *)
Lemma analysis_key_points_not_aligned :
  let R := analysis_runtime in
  let articles := [Samples.article "zero" "http://a/0"] in
  let r := analyze_all articles (fun _ => Return two_points_text) in
  key_points r = [VStr (u "p"); VStr (u "q")]
  /\ ~ length (key_points r) = length articles.
Proof. cbv zeta. split; [reflexivity | discriminate]. Qed.

(** C5, as the code has it.  Provided the analysis of each document either fails before
    anything of it is recorded (its call or its parsing raises, or its
    summary cannot be read) or gives all five fields with key points and
    topics that can be iterated over (a list, a string or an object; a
    number, a boolean or [null] there cannot), [summaries], [sentiment] and
    [biases] have one entry per input document, at the matching index, a
    failed document having the placeholder there; while [key_points] and
    [topics] are the concatenation, in input order, of the key points and
    topics of each document, a failed document giving the single
    placeholder. *)
Theorem analysis_alignment `{Runtime} (articles : list pydict)
    (llm : nat -> outcome pystr) (cs : list contribution) :
  Forall2 contributes (analyses_from 0 articles llm) cs ->
  let r := analyze_all articles llm in
  summaries r = map c_summary cs
  /\ sentiment r = map c_sentiment cs
  /\ biases r = map c_bias cs
  /\ key_points r = concat (map c_key_points cs)
  /\ topics r = concat (map c_topics cs)
  /\ length (summaries r) = length articles
  /\ length (sentiment r) = length articles
  /\ length (biases r) = length articles.
Proof.
  intros Hcs r. subst r. unfold analyze_all.
  rewrite (analyze_from_contributions _ _ _ _ empty_results Hcs). simpl.
  assert (Hlen : length cs = length articles).
  { rewrite <- (Forall2_length Hcs). apply analyses_from_length. }
  rewrite !length_map. repeat split; assumption.
Qed.

(** Two documents: the call for the first fails in transport, the analysis of
    the second has two key points. *)
Lemma analysis_alignment_witness :
  let R := analysis_runtime in
  let articles := [Samples.article "zero" "http://a/0"; Samples.article "one" "http://a/1"] in
  let llm := fun i => match i with
                      | O => Raise (Exn (OtherException (u "APIConnectionError")) (u "down"))
                      | _ => Return two_points_text
                      end in
  let r := analyze_all articles llm in
  summaries r = [failed; VStr (u "S")]
  /\ sentiment r = [failed_sentiment; VDict [(u "score", VInt 1)]]
  /\ key_points r = [failed; VStr (u "p"); VStr (u "q")]
  /\ length (biases r) = 2.
Proof.
  intros R articles llm r.
  assert (Hcs : Forall2 contributes (analyses_from 0 articles llm)
                  [ failure_contribution;
                    Contribution (VStr (u "S")) [VStr (u "p"); VStr (u "q")]
                      (VDict [(u "score", VInt 1)]) [] (VDict []) ]).
  { constructor; [apply contributes_raised |].
    constructor; [| constructor].
    refine (contributes_complete _ _ (VList [VStr (u "p"); VStr (u "q")]) _ _
              (VList []) _ _ _ _ _ _ _ _ _); reflexivity. }
  destruct (@analysis_alignment R articles llm _ Hcs)
    as (Hs & Hse & _ & Hkp & _ & _ & _ & Hb).
  repeat split; assumption.
Defined.

(* ===================================================================== *)
(** * Properties of the verification stage *)
(* ===================================================================== *)

Import FactCheckAgent Scheduling.

Lemma set_nth_length {A} (i : nat) (x : A) (l : list A) :
  length (set_nth i x l) = length l.
Proof.
  revert i; induction l as [|y l IH]; intros [|i]; simpl; auto.
Qed.

Lemma nth_error_set_nth_eq {A} (i : nat) (x y : A) (l : list A) :
  nth_error l i = Some y -> nth_error (set_nth i x l) i = Some x.
Proof.
  revert i; induction l as [|z l IH]; intros [|i]; simpl; try discriminate; auto.
Qed.

Lemma nth_error_set_nth_neq {A} (i j : nat) (x : A) (l : list A) :
  i <> j -> nth_error (set_nth i x l) j = nth_error l j.
Proof.
  revert i j; induction l as [|z l IH]; intros [|i] [|j] Hij; simpl; auto;
    congruence.
Qed.

Lemma in_flight_set_nth (i : nat) (old new : task) (ts : list task) :
  nth_error ts i = Some old ->
  in_flight (set_nth i new ts) + calling old = in_flight ts + calling new.
Proof.
  revert i; induction ts as [|t ts IH]; intros [|i]; simpl; try discriminate.
  - intros [= ->]. destruct old, new; simpl; lia.
  - intros Hi. specialize (IH _ Hi). destruct t; simpl; lia.
Qed.


Lemma Forall2_set_nth {A B} (P : A -> B -> Prop) (i : nat) (a : A) (y : B)
    (la : list A) (lb : list B) :
  Forall2 P la lb -> nth_error la i = Some a -> P a y ->
  Forall2 P la (set_nth i y lb).
Proof.
  intros H; revert i; induction H as [|a' b' la lb Hab H IH]; intros [|i];
    simpl; try discriminate.
  - intros [= ->] Hy. constructor; assumption.
  - intros Hi Hy. constructor; auto.
Qed.

Lemma Forall2_nth_error {A B} (P : A -> B -> Prop) (la : list A) (lb : list B) :
  Forall2 P la lb ->
  forall i a b, nth_error la i = Some a -> nth_error lb i = Some b -> P a b.
Proof.
  induction 1 as [|a' b' la lb Hab H IH]; intros [|i] a b; simpl; try discriminate.
  - intros [= ->] [= ->]. assumption.
  - apply IH.
Qed.

Section Steps.

Context `{Runtime}.
Variable articles : list pydict.

(** Every result of a task carries its article: [process_article] never
    raises. *)
Lemma guarded_returns (article : pydict) (r : outcome pyval) :
  exists verification, guarded article r = Return (fact_check_result article verification).
Proof.
  unfold guarded. destruct r as [v|e]; simpl; eauto.
Qed.

Lemma guarded_raise (article : pydict) (e : exn) :
  guarded article (Raise e) =
  Return (fact_check_result article _get_default_verification).
Proof. reflexivity. Qed.

Lemma process_article_done (article : pydict) (r : outcome pyval) :
  process_article article = Done r ->
  r = Return (fact_check_result article _get_default_verification).
Proof.
  unfold process_article, _verify_article.
  destruct (get _ _ _) as [v|e]; [discriminate|].
  intros [= <-]. reflexivity.
Qed.

Lemma process_article_resumed (article : pydict) (k : outcome pystr -> outcome pyval) :
  process_article article = AwaitLLM k ->
  (forall llm, exists verification,
      k llm = Return (fact_check_result article verification))
  /\ (forall e, k (Raise e) =
                Return (fact_check_result article _get_default_verification)).
Proof.
  unfold process_article, _verify_article.
  destruct (get _ _ _) as [v|e]; [|discriminate].
  intros [= <-]. split.
  - intros llm. apply guarded_returns.
  - intros e. reflexivity.
Qed.

Lemma start_sound : sound articles (start articles).
Proof.
  unfold sound, start; simpl. split.
  - induction articles; simpl; auto.
  - induction articles; simpl; constructor; auto. constructor.
Qed.

Lemma step_sound (p p' : pool) (ev : event) :
  sound articles p -> step articles p ev = Some p' -> sound articles p'.
Proof.
  intros [Hsem Htasks] Hstep. destruct ev as [i | i llm]; simpl in Hstep.
  - destruct (nth_error (tasks p) i) as [[| |]|] eqn:Ht; try discriminate.
    destruct (nth_error articles i) as [article|] eqn:Ha; try discriminate.
    destruct (semaphore p) as [|free] eqn:Hfree; try discriminate.
    destruct (process_article article) as [r|k] eqn:Hbody;
      injection Hstep as <-; unfold sound; simpl.
    + pose proof (in_flight_set_nth i _ (Finished r) _ Ht) as Hif. simpl in Hif.
      split; [lia|].
      rewrite (process_article_done _ _ Hbody).
      eapply Forall2_set_nth; eauto. constructor.
    + pose proof (in_flight_set_nth i _ (Calling k) _ Ht) as Hif. simpl in Hif.
      split; [lia|].
      eapply Forall2_set_nth; eauto. constructor. exact Hbody.
  - destruct (nth_error (tasks p) i) as [[|k|]|] eqn:Ht; try discriminate.
    injection Hstep as <-; unfold sound; simpl.
    pose proof (in_flight_set_nth i _ (Finished (k llm)) _ Ht) as Hif. simpl in Hif.
    split; [lia|].
    assert (Hlen : i < length articles).
    { rewrite (Forall2_length Htasks). apply nth_error_Some. congruence. }
    destruct (nth_error articles i) as [article|] eqn:Ha;
      [| apply nth_error_None in Ha; lia].
    pose proof (Forall2_nth_error _ _ _ Htasks i _ _ Ha Ht) as Hk.
    inversion Hk as [|k' Hbody|]; subst.
    destruct (proj1 (process_article_resumed _ _ Hbody) llm) as [v ->].
    eapply Forall2_set_nth; eauto. constructor.
Qed.

Lemma run_sound (evs : list event) :
  forall p p', sound articles p -> run articles p evs = Some p' -> sound articles p'.
Proof.
  induction evs as [|ev evs IH]; intros p p' Hp; simpl.
  - intros [= <-]. exact Hp.
  - destruct (step articles p ev) as [q|] eqn:Hstep; [|discriminate].
    apply IH. eapply step_sound; eauto.
Qed.




End Steps.

Section Gathering.

Context `{Runtime}.

Lemma gather_done (articles : list pydict) (ts : list task) :
  Forall2 task_of articles ts ->
  forall result, gather ts = Some result ->
  Forall finished ts
  /\ exists results, result = Return results /\ Forall2 carries articles results.
Proof.
  induction 1 as [|article t articles ts Ht Hts IH]; intros result; simpl.
  - intros [= <-]. split; [constructor | exists []; split; [reflexivity | constructor]].
  - inversion Ht as [|k Hk|v]; subst; try discriminate.
    destruct (gather ts) as [[vs|e]|] eqn:Hg; try discriminate.
    + intros [= <-]. destruct (IH _ eq_refl) as (Hfin & results & [= <-] & Hc).
      split; [constructor; [eexists; reflexivity | exact Hfin]|].
      eexists; split; [reflexivity|].
      constructor; [exists v; reflexivity | exact Hc].
    + intros [= <-]. destruct (IH _ eq_refl) as (_ & results & Hres & _).
      discriminate.
Qed.





Lemma step_others (articles : list pydict) (p p' : pool) (ev : event) :
  step articles p ev = Some p' ->
  forall j, j <> event_task ev -> nth_error (tasks p') j = nth_error (tasks p) j.
Proof.
  intros Hstep j Hj. destruct ev as [i | i llm]; simpl in *.
  - destruct (nth_error (tasks p) i) as [[| |]|]; try discriminate.
    destruct (nth_error articles i) as [article|]; try discriminate.
    destruct (semaphore p) as [|free]; try discriminate.
    destruct (process_article article); injection Hstep as <-; simpl;
      apply nth_error_set_nth_neq; congruence.
  - destruct (nth_error (tasks p) i) as [[|k|]|]; try discriminate.
    injection Hstep as <-; simpl. apply nth_error_set_nth_neq; congruence.
Qed.




End Gathering.

Lemma Forall2_nth_error_l {A B} (P : A -> B -> Prop) (la : list A) (lb : list B) :
  Forall2 P la lb ->
  forall i a, nth_error la i = Some a -> exists b, nth_error lb i = Some b /\ P a b.
Proof.
  induction 1 as [|a' b' la lb Hab H IH]; intros [|i] a; simpl; try discriminate.
  - intros [= ->]. eauto.
  - apply IH.
Qed.

Lemma reachable_sound `{Runtime} (articles : list pydict) (evs : list event) (p : pool) :
  run articles (start articles) evs = Some p -> sound articles p.
Proof. apply run_sound, start_sound. Qed.

Lemma start_in_flight (articles : list pydict) :
  in_flight (tasks (start articles)) = 0.
Proof. unfold start; simpl. induction articles; simpl; auto. Qed.


(** C6.  Along every schedule of the event loop over any list of documents,
    with the limit fixed at 3, the number of verification calls in flight
    never exceeds 3: free slots and calls in flight always add up to 3.  A
    task enters its call only by taking a free slot (none is taken when none
    is free), and when its call completes the slot is given back whatever the
    call did, a result or an exception. *)
Theorem verification_concurrency_bound `{Runtime}
    (articles : list pydict) (evs : list event) (p : pool) :
  run articles (start articles) evs = Some p ->
  max_concurrent = 3
  /\ in_flight (tasks p) <= 3
  /\ semaphore p + in_flight (tasks p) = 3
  /\ in_flight (tasks (start articles)) = 0
  /\ (forall i p', step articles p (Acquire i) = Some p' ->
        exists free, semaphore p = S free
          /\ forall k, nth_error (tasks p') i = Some (Calling k) ->
                       semaphore p' = free)
  /\ (forall i llm p', step articles p (Complete i llm) = Some p' ->
        semaphore p' = S (semaphore p)
        /\ exists k, nth_error (tasks p) i = Some (Calling k)
                     /\ nth_error (tasks p') i = Some (Finished (k llm))).
Proof.
  intros Hrun. destruct (reachable_sound _ _ _ Hrun) as [Hsem _].
  unfold max_concurrent in *.
  split; [reflexivity|]. split; [lia|]. split; [exact Hsem|]. split.
  { apply start_in_flight. }
  split.
  - intros i p' Hstep. simpl in Hstep.
    destruct (nth_error (tasks p) i) as [[| |]|] eqn:Ht; try discriminate.
    destruct (nth_error articles i) as [article|]; try discriminate.
    destruct (semaphore p) as [|free]; try discriminate.
    exists free. split; [reflexivity|].
    destruct (process_article article) as [r|k']; injection Hstep as <-; simpl.
    + intros k Hk. rewrite (nth_error_set_nth_eq _ _ _ _ Ht) in Hk. discriminate.
    + reflexivity.
  - intros i llm p' Hstep. simpl in Hstep.
    destruct (nth_error (tasks p) i) as [[|k|]|] eqn:Ht; try discriminate.
    injection Hstep as <-; simpl. split; [reflexivity|].
    exists k. split; [reflexivity|]. eapply nth_error_set_nth_eq; eauto.
Qed.

(** Four documents: once three calls are in flight no slot is free, and the
    fourth task cannot enter. *)
Lemma verification_concurrency_bound_witness :
  let R := verification_runtime in
  exists p,
    run four_articles (start four_articles) [Acquire 0; Acquire 1; Acquire 2] = Some p
    /\ in_flight (tasks p) = 3
    /\ in_flight (tasks p) <= 3
    /\ semaphore p = 0
    /\ step four_articles p (Acquire 3) = None.
Proof.
  intros R. eexists. split; [reflexivity|].
  split; [reflexivity|]. split; [| split; reflexivity].
  exact (proj1 (proj2 (@verification_concurrency_bound R four_articles
                         [Acquire 0; Acquire 1; Acquire 2] _ eq_refl))).
Defined.





(** C10.  Whatever the schedule, the list [process] returns is in input
    order: it is as long as the input, and its entry at each index carries
    under [article_data] the input document of that index. *)
Theorem verification_results_in_input_order `{Runtime}
    (articles : list pydict) (evs : list event) (results : list pyval) :
  process_returns articles evs (Return results) ->
  length results = length articles
  /\ forall i article,
       nth_error articles i = Some article ->
       exists result,
         nth_error results i = Some result
         /\ getitem result (u "article_data") = Return (VDict article).
Proof.
  intros (p & Hrun & Hg).
  destruct (reachable_sound _ _ _ Hrun) as [_ Htasks].
  destruct (gather_done _ _ Htasks _ Hg) as (_ & results' & [= <-] & Hc).
  split; [symmetry; eapply Forall2_length; eauto|].
  intros i article Ha.
  destruct (Forall2_nth_error_l _ _ _ Hc i article Ha) as (result & Hr & v & ->).
  exists (fact_check_result article v). split; [exact Hr | reflexivity].
Qed.

(** Three documents whose calls complete in the order 2, 0, 1: the results
    are in the order 0, 1, 2 all the same. *)
Lemma verification_results_in_input_order_witness :
  let R := verification_runtime in
  let evs := [ Acquire 0; Acquire 1; Acquire 2;
               Complete 2 (sample_llm 2); Complete 0 (sample_llm 0);
               Complete 1 (sample_llm 1) ] in
  exists results,
    process_returns Samples.three_articles evs (Return results)
    /\ length results = 3
    /\ map (fun result => getitem result (u "article_data")) results
       = map (fun article => Return (VDict article)) Samples.three_articles.
Proof.
  intros R evs.
  assert (Hret : exists results,
             process_returns Samples.three_articles evs (Return results)
             /\ map (fun result => getitem result (u "article_data")) results
                = map (fun article => Return (VDict article)) Samples.three_articles).
  { eexists. split; [eexists; split; reflexivity | reflexivity]. }
  destruct Hret as (results & Hret & Hmap).
  exists results. split; [exact Hret | split; [| exact Hmap]].
  exact (proj1 (@verification_results_in_input_order R Samples.three_articles
                  evs results Hret)).
Defined.

(* ===================================================================== *)
(** * Properties of the synthesis stage *)
(* ===================================================================== *)

Import Runs.

Lemma try_except_returns {A} (m : outcome A) (h : exn -> outcome A) :
  (forall e, returns (h e)) -> returns (try_except m h).
Proof.
  intros Hh. destruct m as [a|e]; simpl; [eexists; reflexivity | apply Hh].
Qed.

Lemma executive_summary_returns `{Runtime} (data : pydict) (llm : outcome pystr) :
  returns (ReportAgent._generate_executive_summary data llm).
Proof. apply try_except_returns. intros e. eexists; reflexivity. Qed.

Lemma detailed_analysis_returns `{Runtime} (data : pydict) (llm : outcome pystr) :
  returns (ReportAgent._generate_detailed_analysis data llm).
Proof. apply try_except_returns. intros e. eexists; reflexivity. Qed.

Lemma recommendations_returns `{Runtime} (data report : pydict) (llm : outcome pystr) :
  returns (ReportAgent._generate_recommendations data report llm).
Proof. apply try_except_returns. intros e. eexists; reflexivity. Qed.

(** C9.  [process] of the report agent always returns a report.  When an
    exception arises in its body, the report is the fixed one with an empty
    detailed analysis, no recommendation and the executive summary
    [Report generation failed]; the three sub-steps themselves never raise.
    In the recommendations sub-step a decoded value that is not a list is
    replaced by the empty list. *)
Theorem report_process_never_raises `{Runtime}
    (data : pydict) (llm1 llm2 llm3 : outcome pystr) :
  returns (ReportAgent.process data llm1 llm2 llm3)
  /\ (forall e, ReportAgent.process_body data llm1 llm2 llm3 = Raise e ->
        ReportAgent.process data llm1 llm2 llm3 = Return ReportAgent.failure_report)
  /\ getitem ReportAgent.failure_report (u "detailed_analysis") = Return (VDict [])
  /\ getitem ReportAgent.failure_report (u "recommendations") = Return (VList [])
  /\ (summary <- getitem ReportAgent.failure_report (u "executive_summary") ;;
      getitem summary (u "main_findings"))
     = Return (VStr (u "Report generation failed"))
  /\ returns (ReportAgent._generate_executive_summary data llm1)
  /\ returns (ReportAgent._generate_detailed_analysis data llm2)
  /\ (forall report, returns (ReportAgent._generate_recommendations data report llm3))
  /\ (forall report response value,
        json_loads response = Return value -> is_list value = false ->
        ReportAgent._generate_recommendations data report (Return response)
        = Return (VList [])).
Proof.
  split; [|split; [|split; [|split; [|split; [|split; [|split; [|split]]]]]]].
  - apply try_except_returns. intros e. eexists; reflexivity.
  - intros e He. unfold ReportAgent.process. rewrite He. reflexivity.
  - reflexivity.
  - reflexivity.
  - reflexivity.
  - apply executive_summary_returns.
  - apply detailed_analysis_returns.
  - intros report. apply recommendations_returns.
  - intros report response value Hloads Hlist.
    unfold ReportAgent._generate_recommendations. simpl.
    rewrite Hloads. simpl. rewrite Hlist. reflexivity.
Qed.

(** A report input whose articles are [None]: counting them raises in the
    body and the fixed report comes out; and a response that decodes to an
    object gives no recommendation. *)
Lemma report_process_never_raises_witness :
  let R := report_runtime in
  let llm := Return object_text in
  raises (ReportAgent.process_body data_without_articles llm llm llm)
  /\ ReportAgent.process data_without_articles llm llm llm
     = Return ReportAgent.failure_report
  /\ ReportAgent._generate_recommendations data_without_articles [] llm
     = Return (VList []).
Proof.
  intros R llm.
  destruct (@report_process_never_raises R data_without_articles llm llm llm)
    as (_ & Hbody & _ & _ & _ & _ & _ & _ & Hrec).
  split; [eexists; reflexivity|]. split.
  - eapply Hbody. reflexivity.
  - eapply Hrec; reflexivity.
Defined.

(* ===================================================================== *)
(** * Properties of the coordinator *)
(* ===================================================================== *)

Import Coordinator.

Lemma In_firstn {A} (x : A) (n : nat) (l : list A) :
  In x (firstn n l) -> In x l.
Proof.
  intros Hin. rewrite <- (firstn_skipn n l). apply in_or_app. left. exact Hin.
Qed.

(** What the [try] block does, stage by stage. *)
Lemma research_body_cases (c : collaborators) (topic : pystr) (time_range : pyval)
    (w : world) :
  let q := query topic time_range in
  let calls n more := World (trace w ++ Call Search q :: more) (n + readings w) in
  match search_agent c q with
  | Raise e => research_body c topic time_range w = (calls 0 [], Raise e)
  | Return articles =>
      if truthy articles then
        match analysis_agent c articles with
        | Raise e =>
            research_body c topic time_range w
            = (calls 0 [Call Analysis articles], Raise e)
        | Return analysis_results =>
            let data := report_data topic (now c (readings w)) articles
                                    analysis_results in
            match report_agent c data with
            | Raise e =>
                research_body c topic time_range w
                = (calls 1 [Call Analysis articles; Call Synthesis data], Raise e)
            | Return final_report =>
                match _format_report_markdown c final_report topic with
                | Raise e =>
                    research_body c topic time_range w
                    = (calls 1 [Call Analysis articles; Call Synthesis data;
                                Call Format final_report], Raise e)
                | Return md_content =>
                    research_body c topic time_range w
                    = (calls 1 [Call Analysis articles; Call Synthesis data;
                                Call Format final_report;
                                Call Save (VStr md_content)],
                       match _save_report c md_content topic with
                       | Return _ => Return final_report
                       | Raise e => Raise e
                       end)
                end
            end
        end
      else research_body c topic time_range w
           = (calls 1 [], Return (no_articles_report topic (now c (readings w))))
  end.
Proof.
  cbv zeta. unfold research_body, pbind, invoke, timestamp, ret. simpl.
  destruct (search_agent c _) as [articles|e]; [|reflexivity].
  destruct (truthy articles); simpl; [|reflexivity].
  destruct (analysis_agent c articles) as [analysis_results|e];
    simpl; rewrite <- ?app_assoc; [|reflexivity].
  destruct (report_agent c _) as [final_report|e];
    simpl; rewrite <- ?app_assoc; [|reflexivity].
  destruct (_format_report_markdown c final_report topic) as [md|e];
    simpl; rewrite <- ?app_assoc; [|reflexivity].
  destruct (_save_report c md topic); reflexivity.
Qed.

(** The stages invoked by a run are an initial part of the pipeline. *)
Lemma research_body_stages (c : collaborators) (topic : pystr) (time_range : pyval) :
  exists n, stages_of (fst (research_body c topic time_range idle)) = firstn n pipeline.
Proof.
  pose proof (research_body_cases c topic time_range idle) as Hc. cbv zeta in Hc.
  destruct (search_agent c _) as [articles|e]; [|rewrite Hc; exists 1; reflexivity].
  destruct (truthy articles); [|rewrite Hc; exists 1; reflexivity].
  destruct (analysis_agent c articles) as [analysis_results|e];
    [|rewrite Hc; exists 2; reflexivity].
  destruct (report_agent c _) as [final_report|e];
    [|rewrite Hc; exists 3; reflexivity].
  destruct (_format_report_markdown c final_report topic) as [md|e];
    [|rewrite Hc; exists 4; reflexivity].
  rewrite Hc. exists 5. reflexivity.
Qed.

Lemma research_topic_trace `{Runtime} (c : collaborators) (topic : pystr)
    (time_range : pyval) (w : world) :
  trace (fst (research_topic c topic time_range w))
  = trace (fst (research_body c topic time_range w)).
Proof.
  unfold research_topic, ptry.
  destruct (research_body c topic time_range w) as [w' [r|e]]; reflexivity.
Qed.

(** C1 against the code: a run in which the search finds three documents
    never reaches the verification agent; the four agents of the
    specification are not what is invoked. *)
Lemma research_topic_skips_verification :
  let R := report_runtime in
  let run := research_topic sample_collaborators (u "AI") VNone idle in
  stages_of (fst run) = [Search; Analysis; Synthesis; Format; Save]
  /\ ~ In Verification (stages_of (fst run))
  /\ ~ firstn 4 (stages_of (fst run)) = four_agents.
Proof.
  cbv zeta. split; [reflexivity|]. split.
  - simpl. intros [H | [H | [H | [H | [H | []]]]]]; discriminate.
  - discriminate.
Qed.

(** C1, as the code has it.  In every run in which the search returns a non-empty list
    and no stage raises, [research_topic] invokes three agents strictly in
    sequence: the search agent with the query, the analysis agent with the
    full list the search returned, the report agent with the topic, a
    timestamp, that list and the full result of the analysis; it then hands
    the final report to [_format_report_markdown] and its text to
    [_save_report], and returns the final report.  The verification agent is
    invoked in no run: the stages invoked are always an initial part of
    search, analysis, synthesis, format, save. *)
Theorem research_topic_sequence `{Runtime} (c : collaborators) (topic : pystr)
    (time_range : pyval) (w : world)
    (articles analysis_results final_report : pyval) (md_content file : pystr) :
  let q := query topic time_range in
  let data := report_data topic (now c (readings w)) articles analysis_results in
  search_agent c q = Return articles ->
  truthy articles = true ->
  analysis_agent c articles = Return analysis_results ->
  report_agent c data = Return final_report ->
  _format_report_markdown c final_report topic = Return md_content ->
  _save_report c md_content topic = Return file ->
  research_topic c topic time_range w
  = (World (trace w ++ [ Call Search q; Call Analysis articles;
                         Call Synthesis data; Call Format final_report;
                         Call Save (VStr md_content) ])
           (S (readings w)),
     Return final_report)
  /\ (forall c' topic' time_range',
        let run := research_topic c' topic' time_range' idle in
        (exists n, stages_of (fst run) = firstn n pipeline)
        /\ ~ In Verification (stages_of (fst run))).
Proof.
  intros q data Hsearch Htruthy Hanalysis Hreport Hformat Hsave. split.
  - pose proof (research_body_cases c topic time_range w) as Hc. cbv zeta in Hc.
    fold q in Hc. rewrite Hsearch, Htruthy, Hanalysis in Hc.
    fold data in Hc. rewrite Hreport, Hformat, Hsave in Hc.
    unfold research_topic, ptry. rewrite Hc. reflexivity.
  - intros c' topic' time_range' run. subst run.
    unfold stages_of. rewrite research_topic_trace.
    destruct (research_body_stages c' topic' time_range') as [n Hn].
    unfold stages_of in Hn. split; [exists n; exact Hn|].
    rewrite Hn. intros Hin. apply In_firstn in Hin.
    simpl in Hin. intuition discriminate.
Qed.

(** The run of the sample collaborators. *)
Lemma research_topic_sequence_witness :
  let R := report_runtime in
  let c := sample_collaborators in
  let articles := VList (map VDict Samples.three_articles) in
  let data := report_data (u "AI") (sample_clock 0) articles sample_analysis in
  research_topic c (u "AI") VNone idle
  = (World [ Call Search (query (u "AI") VNone); Call Analysis articles;
             Call Synthesis data; Call Format ReportAgent.failure_report;
             Call Save (VStr (u "# Research Report")) ] 1,
     Return ReportAgent.failure_report).
Proof.
  intros R c articles data.
  exact (proj1 (@research_topic_sequence R c (u "AI") VNone idle articles
                  sample_analysis ReportAgent.failure_report
                  (u "# Research Report") (u "reports/AI_2025-05-19_100005.md")
                  eq_refl eq_refl eq_refl eq_refl eq_refl eq_refl)).
Defined.



(* ===================================================================== *)
(** * Further properties: cleaning the response *)
(* ===================================================================== *)

#[local] Arguments N.eqb : simpl never.

Lemma fence_json_chars : fence_json = [96; 96; 96; 106; 115; 111; 110]%N.
Proof. reflexivity. Qed.

Lemma fence_chars : fence = [96; 96; 96]%N.
Proof. reflexivity. Qed.

Lemma is_space_backtick (c : N) : is_space c = true -> c <> 96%N.
Proof. intros Hc ->. discriminate. Qed.

Lemma startswith_fence_json_other (c : N) (t : pystr) :
  c <> 96%N -> startswith fence_json (c :: t) = false.
Proof.
  intros Hc. rewrite fence_json_chars. simpl.
  destruct (N.eqb_spec 96 c); [congruence | reflexivity].
Qed.

Lemma startswith_fence_other (c : N) (t : pystr) :
  c <> 96%N -> startswith fence (c :: t) = false.
Proof.
  intros Hc. rewrite fence_chars. simpl.
  destruct (N.eqb_spec 96 c); [congruence | reflexivity].
Qed.

(** Without a backtick nothing is removed. *)
Lemma sub_fence_json_plain (s : pystr) :
  ~ In 96%N s -> sub_fence_json 0 false s = s.
Proof.
  induction s as [|c t IH]; intros Hs; [reflexivity|].
  cbn [sub_fence_json andb].
  rewrite startswith_fence_json_other by (intros ->; apply Hs; left; reflexivity).
  rewrite IH by (intros Hin; apply Hs; right; exact Hin). reflexivity.
Qed.

Lemma sub_fence_end_plain (s : pystr) :
  ~ In 96%N s -> sub_fence_end s = s.
Proof.
  induction s as [|c t IH]; intros Hs; [reflexivity|].
  cbn [sub_fence_end].
  rewrite startswith_fence_other by (intros ->; apply Hs; left; reflexivity).
  cbn [andb]. rewrite IH by (intros Hin; apply Hs; right; exact Hin). reflexivity.
Qed.

(** X1.  A response without any backtick is only trimmed: it is returned
    stripped when the stripped text begins with a brace or a bracket, and
    refused otherwise. *)
Theorem clean_without_fence (response : pystr) :
  ~ In 96%N response ->
  _clean_json_response response =
  if startswith (u "{") (strip response) || startswith (u "[") (strip response)
  then Return (strip response)
  else Raise (Exn ValueError (u "Response is not a valid JSON object/array")).
Proof.
  intros Hplain. unfold _clean_json_response.
  rewrite (sub_fence_json_plain _ Hplain), (sub_fence_end_plain _ Hplain).
  destruct (startswith (u "{") (strip response)),
           (startswith (u "[") (strip response)); reflexivity.
Qed.

Lemma clean_without_fence_witness :
  _clean_json_response (u "  [1, 2]  ") = Return (u "[1, 2]")
  /\ raises (_clean_json_response (u " 1, 2 ")).
Proof.
  split.
  - rewrite (clean_without_fence (u "  [1, 2]  ")); [reflexivity|].
    cbv. intuition discriminate.
  - rewrite (clean_without_fence (u " 1, 2 ")); [eexists; reflexivity|].
    cbv. intuition discriminate.
Defined.

Lemma lstrip_spaces (ws rest : pystr) :
  forallb is_space ws = true -> lstrip (ws ++ rest) = lstrip rest.
Proof.
  induction ws as [|w ws IH]; simpl; [reflexivity|].
  intros Hws. apply andb_prop in Hws as [Hw Hws]. rewrite Hw. auto.
Qed.

Lemma lstrip_idempotent (s : pystr) : lstrip (lstrip s) = lstrip s.
Proof.
  induction s as [|c t IH]; simpl; [reflexivity|].
  destruct (is_space c) eqn:Hc; [exact IH | simpl; rewrite Hc; reflexivity].
Qed.

Lemma lstrip_snoc (l : pystr) (c : N) :
  is_space c = false -> lstrip (l ++ [c]) = lstrip l ++ [c].
Proof.
  intros Hc. induction l as [|x l IH]; simpl; [rewrite Hc; reflexivity|].
  destruct (is_space x); [exact IH | reflexivity].
Qed.

Lemma rstrip_cons (c : N) (t : pystr) :
  is_space c = false -> rstrip (c :: t) = c :: rstrip t.
Proof.
  intros Hc. unfold rstrip. simpl. rewrite (lstrip_snoc _ _ Hc), rev_app_distr.
  reflexivity.
Qed.

Lemma rstrip_idempotent (s : pystr) : rstrip (rstrip s) = rstrip s.
Proof. unfold rstrip. rewrite rev_involutive, lstrip_idempotent. reflexivity. Qed.

Lemma lstrip_head (s : pystr) :
  lstrip s = [] \/ exists c t, lstrip s = c :: t /\ is_space c = false.
Proof.
  induction s as [|c t IH]; simpl; [left; reflexivity|].
  destruct (is_space c) eqn:Hc; [exact IH | right; eauto].
Qed.

Lemma strip_idempotent (s : pystr) : strip (strip s) = strip s.
Proof.
  unfold strip. destruct (lstrip_head s) as [-> | (c & t & -> & Hc)].
  - reflexivity.
  - rewrite (rstrip_cons _ _ Hc). simpl. rewrite Hc.
    rewrite (rstrip_cons _ _ Hc), rstrip_idempotent. reflexivity.
Qed.

(** X2.  What [_clean_json_response] returns begins with a brace or a
    bracket and has no white space left at either end. *)
Theorem clean_result_trimmed (response cleaned : pystr) :
  _clean_json_response response = Return cleaned ->
  (startswith (u "{") cleaned = true \/ startswith (u "[") cleaned = true)
  /\ strip cleaned = cleaned.
Proof.
  unfold _clean_json_response. cbv zeta.
  set (c := strip (sub_fence_end (sub_fence_json 0 false response))).
  destruct (startswith (u "{") c) eqn:Hbrace;
    destruct (startswith (u "[") c) eqn:Hbracket; simpl;
    intros [= <-]; (split; [auto | apply strip_idempotent]).
Qed.

Lemma clean_result_trimmed_witness :
  let cleaned := u "{x}" in
  (startswith (u "{") cleaned = true \/ startswith (u "[") cleaned = true)
  /\ strip cleaned = cleaned.
Proof.
  exact (clean_result_trimmed (u "```json {x} ```") (u "{x}") eq_refl).
Defined.

Lemma sub_fence_json_spaces (ws rest : pystr) :
  forallb is_space ws = true ->
  sub_fence_json 0 true (ws ++ rest) = sub_fence_json 0 true rest.
Proof.
  induction ws as [|w ws IH]; simpl; [reflexivity|].
  intros Hws. apply andb_prop in Hws as [Hw Hws]. rewrite Hw. auto.
Qed.

Lemma spaces_plain (ws : pystr) : forallb is_space ws = true -> ~ In 96%N ws.
Proof.
  intros Hws Hin. rewrite forallb_forall in Hws. specialize (Hws _ Hin).
  discriminate.
Qed.

Lemma sub_fence_json_emit (c : N) (t : pystr) :
  startswith fence_json (c :: t) = false ->
  sub_fence_json 0 false (c :: t) = c :: sub_fence_json 0 false t.
Proof. cbn [sub_fence_json andb]. intros ->. reflexivity. Qed.

Lemma sub_fence_json_match (c : N) (t : pystr) :
  startswith fence_json (c :: t) = true ->
  sub_fence_json 0 false (c :: t) = sub_fence_json 6 true t.
Proof. cbn [sub_fence_json andb]. intros ->. reflexivity. Qed.

Lemma startswith_fence_json_needs_j (w : N) (ws : pystr) :
  w <> 106%N -> startswith fence_json (96 :: 96 :: 96 :: w :: ws)%N = false.
Proof.
  intros Hw. rewrite fence_json_chars. cbn [startswith].
  rewrite !N.eqb_refl. cbn [andb].
  destruct (N.eqb_spec 106 w); [congruence | reflexivity].
Qed.

Lemma startswith_fence_json_two (w : N) (ws : pystr) :
  w <> 96%N -> startswith fence_json (96 :: 96 :: w :: ws)%N = false.
Proof.
  intros Hw. rewrite fence_json_chars. cbn [startswith].
  rewrite !N.eqb_refl. cbn [andb].
  destruct (N.eqb_spec 96 w); [congruence | reflexivity].
Qed.

Lemma startswith_fence_json_one (w : N) (ws : pystr) :
  w <> 96%N -> startswith fence_json (96 :: w :: ws)%N = false.
Proof.
  intros Hw. rewrite fence_json_chars. cbn [startswith].
  rewrite !N.eqb_refl. cbn [andb].
  destruct (N.eqb_spec 96 w); [congruence | reflexivity].
Qed.

(** The closing fence and what follows it are left alone by the first
    substitution. *)
Lemma sub_fence_json_closing (ws : pystr) :
  forallb is_space ws = true ->
  sub_fence_json 0 false (fence ++ ws) = fence ++ ws.
Proof.
  intros Hws. rewrite fence_chars.
  pose proof (sub_fence_json_plain ws (spaces_plain _ Hws)) as Hplain.
  destruct ws as [|w ws]; [reflexivity|].
  assert (Hspace : is_space w = true)
    by (cbn [forallb] in Hws; apply andb_prop in Hws; tauto).
  assert (Hw : w <> 96%N) by (apply is_space_backtick; exact Hspace).
  assert (Hj : w <> 106%N) by (intros ->; discriminate).
  cbn [app].
  rewrite (sub_fence_json_emit _ _ (startswith_fence_json_needs_j w ws Hj)).
  rewrite (sub_fence_json_emit _ _ (startswith_fence_json_two w ws Hw)).
  rewrite (sub_fence_json_emit _ _ (startswith_fence_json_one w ws Hw)).
  rewrite Hplain. reflexivity.
Qed.

Lemma sub_fence_json_body (body ws : pystr) :
  ~ In 96%N body -> forallb is_space ws = true ->
  sub_fence_json 0 false (body ++ fence ++ ws) = body ++ fence ++ ws.
Proof.
  intros Hbody Hws. induction body as [|c t IH].
  - apply sub_fence_json_closing. exact Hws.
  - cbn [app sub_fence_json andb].
    rewrite startswith_fence_json_other by (intros ->; apply Hbody; left; reflexivity).
    rewrite IH by (intros Hin; apply Hbody; right; exact Hin). reflexivity.
Qed.

Lemma sub_fence_end_closing (ws : pystr) :
  forallb is_space ws = true -> sub_fence_end (fence ++ ws) = [].
Proof.
  intros Hws. rewrite fence_chars. cbn [app].
  assert (Hcut : forall c t,
             startswith fence (c :: t) && forallb is_space (skipn 3 (c :: t)) = true ->
             sub_fence_end (c :: t) = []).
  { intros c t Hct. cbn [sub_fence_end]. rewrite Hct. reflexivity. }
  apply Hcut. rewrite fence_chars. cbn [startswith skipn].
  rewrite !N.eqb_refl. cbn [andb]. exact Hws.
Qed.

Lemma sub_fence_end_body (body ws : pystr) :
  ~ In 96%N body -> forallb is_space ws = true ->
  sub_fence_end (body ++ fence ++ ws) = body.
Proof.
  intros Hbody Hws. induction body as [|c t IH].
  - apply sub_fence_end_closing. exact Hws.
  - cbn [app sub_fence_end].
    rewrite startswith_fence_other by (intros ->; apply Hbody; left; reflexivity).
    cbn [andb]. rewrite IH by (intros Hin; apply Hbody; right; exact Hin). reflexivity.
Qed.

(** X3.  A JSON text wrapped in a markdown fence is unwrapped: for a body
    without backtick that begins with a brace or a bracket and does not end
    in white space, the fence [```json], white space, the body, the closing
    fence and white space clean to the body itself. *)
Theorem clean_unwraps_fence (before body after : pystr) :
  forallb is_space before = true ->
  forallb is_space after = true ->
  ~ In 96%N body ->
  startswith (u "{") body || startswith (u "[") body = true ->
  strip body = body ->
  _clean_json_response (fence_json ++ before ++ body ++ fence ++ after)
  = Return body.
Proof.
  intros Hbefore Hafter Hplain Hstart Hstrip.
  destruct body as [|c t]; [discriminate|].
  assert (Hc : is_space c = false /\ c <> 96%N).
  { split; [|intros ->; apply Hplain; left; reflexivity].
    change (u "{") with [123%N] in Hstart. change (u "[") with [91%N] in Hstart.
    cbn [startswith] in Hstart. rewrite !andb_true_r in Hstart.
    destruct (N.eqb_spec 123 c) as [<-|]; [reflexivity|].
    destruct (N.eqb_spec 91 c) as [<-|]; [reflexivity | discriminate]. }
  destruct Hc as [Hspace Hc].
  assert (Hsub : sub_fence_json 0 false
                   (fence_json ++ before ++ (c :: t) ++ fence ++ after)
                 = (c :: t) ++ fence ++ after).
  { assert (Hopen : forall rest,
               sub_fence_json 0 false (fence_json ++ rest)
               = sub_fence_json 0 true rest).
    { intros rest. rewrite fence_json_chars. cbn [app].
      rewrite sub_fence_json_match; [reflexivity|].
      rewrite fence_json_chars. cbn [startswith]. rewrite !N.eqb_refl.
      reflexivity. }
    rewrite Hopen, (sub_fence_json_spaces _ _ Hbefore).
    cbn [app sub_fence_json]. rewrite Hspace. cbn [andb].
    rewrite (startswith_fence_json_other _ _ Hc).
    rewrite (sub_fence_json_body t after); [reflexivity | | exact Hafter].
    intros Hin. apply Hplain. right. exact Hin. }
  unfold _clean_json_response. rewrite Hsub.
  rewrite (sub_fence_end_body (c :: t) after Hplain Hafter), Hstrip.
  apply orb_prop in Hstart. destruct Hstart as [-> | ->]; cbn [negb andb];
    [reflexivity | destruct (startswith (u "{") (c :: t)); reflexivity].
Qed.

Lemma clean_unwraps_fence_witness :
  _clean_json_response
    (fence_json ++ [10%N] ++ u "{x: [1]}" ++ fence ++ [10%N; 32%N])
  = Return (u "{x: [1]}").
Proof.
  apply (clean_unwraps_fence [10%N] (u "{x: [1]}") [10%N; 32%N]);
    try reflexivity.
  cbv. intuition discriminate.
Defined.

(* ===================================================================== *)
(** * Further properties: the search stage *)
(* ===================================================================== *)

Import NewsSource Shapes.

Lemma list_index_In {A} (l : list A) (i : Z) (x : A) :
  list_index l i = Return x -> In x l.
Proof.
  unfold list_index. cbv zeta.
  destruct (_ || _); [discriminate|].
  destruct (nth_error l _) as [y|] eqn:Hnth; [|discriminate].
  intros [= <-]. eapply nth_error_In; eauto.
Qed.

Lemma bind_return {A B} (m : outcome A) (k : A -> outcome B) (b : B) :
  bind m k = Return b -> exists a, m = Return a /\ k a = Return b.
Proof. destruct m as [a|e]; simpl; [eauto | discriminate]. Qed.

Lemma resolve_ranked_some `{Runtime} (articles : list pydict) (ranked : pyval)
    (result : pydict) :
  resolve_ranked articles ranked = Return (Some result) ->
  exists article score explanation,
    In article articles /\ result = attach article score explanation.
Proof.
  unfold resolve_ranked. intros Hr.
  apply bind_return in Hr as (id & _ & Hr).
  apply bind_return in Hr as (article_id & _ & Hr).
  destruct (article_id <? _)%Z; [|discriminate].
  apply bind_return in Hr as (article & Hindex & Hr).
  apply bind_return in Hr as (score_raw & _ & Hr).
  apply bind_return in Hr as (score & _ & Hr).
  apply bind_return in Hr as (explanation & _ & Hr).
  injection Hr as <-.
  exists article, score, explanation. split; [|reflexivity].
  eapply list_index_In; eauto.
Qed.

Lemma match_ranked_provenance `{Runtime} (articles : list pydict)
    (entries : list pyval) :
  forall acc results,
  match_ranked articles entries acc = Return results ->
  forall r, In r results ->
  In r acc \/ exists article score explanation,
                In article articles /\ r = attach article score explanation.
Proof.
  induction entries as [|ranked rest IH]; intros acc results; simpl.
  - intros [= <-] r Hr. left. exact Hr.
  - destruct (resolve_ranked articles ranked) as [[article|]|e] eqn:Hres.
    + intros Hm r Hr. destruct (IH _ _ Hm r Hr) as [Hacc | Hnew]; [|right; exact Hnew].
      apply in_app_or in Hacc as [Hacc | [<- | []]]; [left; exact Hacc|].
      right. eapply resolve_ranked_some; eauto.
    + apply IH.
    + destruct (skipped_error e); [apply IH | discriminate].
Qed.

Lemma firstn_nonempty {A} (n : nat) (l : list A) :
  l <> [] -> firstn (S n) l <> [].
Proof. destruct l; simpl; congruence. Qed.

Lemma rank_articles_nonempty `{Runtime} (articles : list pydict) (llm : outcome pystr) :
  articles <> [] -> _rank_articles articles llm <> [].
Proof.
  intros Hne.
  destruct (rank_articles_cases articles llm) as [-> | (survivors & Hs & _ & ->)].
  - apply (firstn_nonempty 9). exact Hne.
  - intros Hnil. apply Hs. apply Permutation_nil.
    rewrite <- Hnil. symmetry. apply sort_desc_perm.
Qed.

(** X4.  [process] of the search agent returns at most
    [MAX_ARTICLES_PER_SEARCH] = 10 articles whatever the LLM does, and it
    returns none only when the fetch gave none: the ranking never loses
    every article. *)
Theorem search_process_bounds `{Runtime} (raw_articles : list pydict)
    (llm : outcome pystr) :
  length (SearchAgent.process raw_articles llm) <= 10
  /\ (SearchAgent.process raw_articles llm = [] <-> raw_articles = []).
Proof.
  unfold SearchAgent.process. destruct raw_articles as [|a rest].
  - split; [simpl; lia | tauto].
  - split.
    + rewrite length_firstn. unfold MAX_ARTICLES_PER_SEARCH. lia.
    + split; [|discriminate]. intros Hnil. exfalso.
      revert Hnil. apply (firstn_nonempty 9). apply rank_articles_nonempty.
      discriminate.
Qed.

Lemma undecodable_ranking `{Runtime} (articles : list pydict) (response : pystr) :
  undecodable response ->
  ranked_survivors articles (Return response) = Return [].
Proof.
  intros [e He]. unfold ranked_survivors. simpl.
  rewrite (parse_failure _ _ _ He). reflexivity.
Qed.

(** X5.  When the call to the LLM raises, or its response cannot be cleaned
    and decoded, [process] falls back to the first ten fetched articles in
    the order of the provider, unchanged. *)
Theorem search_process_fallback `{Runtime} (raw_articles : list pydict)
    (llm : outcome pystr) :
  raises llm \/ (exists response, llm = Return response /\ undecodable response) ->
  SearchAgent.process raw_articles llm = firstn 10 raw_articles.
Proof.
  intros Hllm.
  assert (Hs : raises (ranked_survivors raw_articles llm)
               \/ ranked_survivors raw_articles llm = Return []).
  { destruct Hllm as [[e ->] | (response & -> & Hu)].
    - left. exists e. reflexivity.
    - right. apply undecodable_ranking. exact Hu. }
  unfold SearchAgent.process, _rank_articles, MAX_ARTICLES_PER_SEARCH.
  destruct raw_articles as [|a rest]; [reflexivity|].
  set (raw := a :: rest) in *.
  assert (Hff : firstn 10 (firstn 10 raw) = firstn 10 raw)
    by (rewrite firstn_firstn; reflexivity).
  destruct (articles_for_evaluation 0 raw); [exact Hff|].
  destruct Hs as [[e ->] | ->]; exact Hff.
Qed.

Lemma search_process_fallback_witness :
  let R := Samples.ranking_runtime in
  SearchAgent.process Samples.three_articles (Return (u "I would rank them so:"))
  = Samples.three_articles.
Proof.
  intros R.
  apply (@search_process_fallback R Samples.three_articles).
  right. eexists. split; [reflexivity|]. eexists. reflexivity.
Defined.

(** X6.  [process] invents no article: each article it returns is a fetched
    article, either as it was or with the fields [relevance_score] and
    [ranking_explanation] set. *)
Theorem search_process_provenance `{Runtime} (raw_articles : list pydict)
    (llm : outcome pystr) (result : pydict) :
  In result (SearchAgent.process raw_articles llm) ->
  exists article,
    In article raw_articles
    /\ (result = article
        \/ exists score explanation, result = attach article score explanation).
Proof.
  unfold SearchAgent.process. destruct raw_articles as [|a rest]; [intros []|].
  set (raw := a :: rest). intros Hin. apply In_firstn in Hin.
  destruct (rank_articles_cases raw llm) as [Hfb | (survivors & _ & Hs & Hr)].
  - rewrite Hfb in Hin. apply In_firstn in Hin. exists result. auto.
  - rewrite Hr in Hin.
    apply (Permutation_in _ (Permutation_sym (sort_desc_perm survivors))) in Hin.
    unfold ranked_survivors in Hs.
    apply bind_return in Hs as (response & _ & Hs).
    apply bind_return in Hs as (parsed & _ & Hs).
    apply bind_return in Hs as (listed & _ & Hs).
    apply bind_return in Hs as (entries & _ & Hs).
    destruct (match_ranked_provenance _ _ _ _ Hs _ Hin)
      as [[] | (article & score & explanation & Ha & ->)].
    exists article. split; [exact Ha | right; eauto].
Qed.

Lemma search_process_provenance_witness :
  let R := Samples.ranking_runtime in
  let a0 := Samples.article "zero" "http://a/0" in
  exists article,
    In article Samples.three_articles
    /\ (attach a0 (8 # 10) (VStr (u "why")) = article
        \/ exists score explanation,
             attach a0 (8 # 10) (VStr (u "why")) = attach article score explanation).
Proof.
  intros R a0.
  apply (@search_process_provenance R Samples.three_articles
           (Return Samples.ranking_text)).
  right. left. reflexivity.
Defined.

Lemma insert_desc_filter (x : pydict) (l : list pydict) (q : pyfloat) :
  filter (fun a => feq_bool (sort_key a) q) (insert_desc x l)
  = filter (fun a => feq_bool (sort_key a) q) (x :: l).
Proof.
  induction l as [|y l IH]; [reflexivity|].
  cbn [insert_desc].
  destruct (fle_bool (sort_key y) (sort_key x)) eqn:Hle; [reflexivity|].
  cbn [filter] in *. rewrite IH.
  destruct (feq_bool (sort_key x) q) eqn:Hx; [|reflexivity].
  destruct (feq_bool (sort_key y) q) eqn:Hy; [|reflexivity].
  rewrite (feq_bool_fle _ _ _ Hx Hy) in Hle. discriminate.
Qed.

Lemma stable_desc_filter (l : list pydict) (q : pyfloat) :
  filter (fun a => feq_bool (sort_key a) q) (stable_desc l)
  = filter (fun a => feq_bool (sort_key a) q) l.
Proof.
  induction l as [|x l IH]; [reflexivity|].
  cbn [stable_desc fold_right]. fold (stable_desc l).
  rewrite insert_desc_filter. cbn [filter]. rewrite IH. reflexivity.
Qed.

(** X7.  The ranking is stable when no score is NaN: whenever
    [_rank_articles] returns the ranked articles and not its fallback, and
    [float] made no score NaN, the articles of any one relevance score come
    out in the order in which the LLM listed them.  (With a NaN among the
    scores the keys are not ordered and [list.sort] promises no such
    thing.) *)
Theorem rank_articles_stable `{Runtime} (articles survivors : list pydict)
    (llm : outcome pystr) (q : pyfloat) :
  articles_for_evaluation 0 articles <> [] ->
  ranked_survivors articles llm = Return survivors ->
  survivors <> [] ->
  unordered survivors = false ->
  filter (fun a => feq_bool (sort_key a) q) (_rank_articles articles llm)
  = filter (fun a => feq_bool (sort_key a) q) survivors.
Proof.
  intros Hev Hs Hne Hord. unfold _rank_articles.
  destruct articles as [|a rest]; [simpl in Hev; congruence|].
  destruct (articles_for_evaluation 0 (a :: rest)); [congruence|].
  rewrite Hs. destruct survivors as [|r rs]; [congruence|].
  unfold sort_desc. rewrite Hord. apply stable_desc_filter.
Qed.

Lemma rank_articles_stable_witness :
  let tie := VDict [ (u "ranked_articles",
                      VList [ Samples.ranked 1 (1 # 2); Samples.ranked 2 (9 # 10);
                              Samples.ranked 0 (1 # 2) ]) ] in
  let R := Samples.runtime [(u "{tie}", tie)] [] [] in
  let a0 := Samples.article "zero" "http://a/0" in
  let a1 := Samples.article "one" "http://a/1" in
  let why := VStr (u "why") in
  filter (fun a => feq_bool (sort_key a) (1 # 2))
         (_rank_articles Samples.three_articles (Return (u "{tie}")))
  = [attach a1 (1 # 2) why; attach a0 (1 # 2) why].
Proof.
  intros tie R a0 a1 why.
  rewrite (@rank_articles_stable R Samples.three_articles
             [attach a1 (1 # 2) why; attach (Samples.article "two" "http://a/2")
                                       (9 # 10) why; attach a0 (1 # 2) why]
             (Return (u "{tie}")) (1 # 2)).
  - reflexivity.
  - discriminate.
  - reflexivity.
  - discriminate.
  - reflexivity.
Defined.

(* ===================================================================== *)
(** * Further properties: fetching the articles *)
(* ===================================================================== *)

Lemma normalize_normalized (item : pyval) (article : pydict) :
  normalize item = Return article -> normalized article.
Proof.
  unfold normalize. intros Hn.
  apply bind_return in Hn as (title & _ & Hn).
  apply bind_return in Hn as (description & _ & Hn).
  apply bind_return in Hn as (url & _ & Hn).
  apply bind_return in Hn as (source & _ & Hn).
  apply bind_return in Hn as (name & _ & Hn).
  apply bind_return in Hn as (publishedAt & _ & Hn).
  apply bind_return in Hn as (content & _ & Hn).
  injection Hn as <-.
  exists title, description, url, name, publishedAt, content. reflexivity.
Qed.

Lemma normalize_well_sourced (item : pyval) :
  if well_sourced item then returns (normalize item) else raises (normalize item).
Proof.
  destruct item as [| | | | |l|d]; try (eexists; reflexivity).
  unfold well_sourced, normalize.
  change (get (VDict d) (u "source") (VDict []))
    with (Return (A := pyval) (dict_get d (u "source") (VDict []))).
  destruct (dict_get d (u "source") (VDict [])); eexists; reflexivity.
Qed.

Lemma normalize_all_shape (items : list pyval) :
  forall articles, normalize_all items = Return articles ->
  Forall2 (fun item article => normalize item = Return article) items articles.
Proof.
  induction items as [|item items IH]; intros articles; simpl.
  - intros [= <-]. constructor.
  - intros Hn. apply bind_return in Hn as (a & Ha & Hn).
    apply bind_return in Hn as (rest & Hrest & Hn). injection Hn as <-.
    constructor; auto.
Qed.

Lemma normalize_all_well_sourced (items : list pyval) :
  if forallb well_sourced items
  then exists articles, normalize_all items = Return articles
                        /\ length articles = length items
  else raises (normalize_all items).
Proof.
  induction items as [|item items IH]; simpl.
  - exists []. split; reflexivity.
  - pose proof (normalize_well_sourced item) as Hitem.
    destruct (well_sourced item); simpl.
    + destruct Hitem as [a ->]. simpl.
      destruct (forallb well_sourced items).
      * destruct IH as (articles & -> & Hlen). simpl.
        eexists. split; [reflexivity | simpl; congruence].
      * destruct IH as [e ->]. eexists. reflexivity.
    + destruct Hitem as [e ->]. eexists. reflexivity.
Qed.

Lemma fetch_normalized `{Provider} (query : pydict) (articles : list pydict) :
  _fetch_articles query = Return articles -> Forall normalized articles.
Proof.
  unfold _fetch_articles.
  destruct (fetch_body query) as [articles'|e] eqn:Hbody; simpl.
  - intros [= <-]. unfold fetch_body in Hbody.
    apply bind_return in Hbody as (range & _ & Hbody).
    apply bind_return in Hbody as (topic & _ & Hbody).
    apply bind_return in Hbody as (response & _ & Hbody).
    apply bind_return in Hbody as (listed & _ & Hbody).
    apply bind_return in Hbody as (items & _ & Hbody).
    apply normalize_all_shape in Hbody.
    induction Hbody as [|item a items articles Ha _ IH]; constructor; auto.
    eapply normalize_normalized; eauto.
  - intros [= <-]. constructor.
Qed.

(** X8.  [_fetch_articles] never raises, and every article it returns has
    exactly the six fields [title], [description], [url], [source],
    [publishedAt], [content], its [source] being a dict with the one key
    [name].  It returns an article only for a query that has a [topic]. *)
Theorem fetch_articles_normalized `{Provider} (query : pydict) :
  exists articles,
    _fetch_articles query = Return articles
    /\ Forall normalized articles
    /\ (articles <> [] -> exists topic, dict_lookup query (u "topic") = Some topic).
Proof.
  destruct (_fetch_articles query) as [articles|e] eqn:Hfetch.
  - exists articles. split; [reflexivity|].
    split; [eapply fetch_normalized; eauto|].
    intros Hne. unfold _fetch_articles in Hfetch.
    destruct (fetch_body query) as [articles'|e] eqn:Hbody; simpl in Hfetch;
      [|congruence].
    unfold fetch_body in Hbody.
    apply bind_return in Hbody as (range & _ & Hbody).
    apply bind_return in Hbody as (topic & Htopic & _).
    simpl in Htopic.
    destruct (dict_lookup query (u "topic")) as [t|]; [eauto | discriminate].
  - unfold _fetch_articles in Hfetch.
    destruct (fetch_body query); discriminate.
Qed.

(** X9.  The fetch is all or nothing.  When the provider answers with a list
    of articles, [_fetch_articles] returns one article for each of them if
    each is a dict whose [source] is a dict (or is missing); a single article
    that is not, such as one with a [null] source, makes it return the empty
    list. *)
Theorem fetch_articles_all_or_nothing `{Provider} (query : pydict)
    (range : pystr * pystr) (topic response : pyval) (items : list pyval) :
  date_range query = Return range ->
  dict_lookup query (u "topic") = Some topic ->
  get_everything topic (fst range) (snd range) = Return response ->
  getitem response (u "articles") = Return (VList items) ->
  exists articles,
    _fetch_articles query = Return articles
    /\ length articles = if forallb well_sourced items then length items else 0.
Proof.
  intros Hrange Htopic Hresponse Hlisted.
  unfold _fetch_articles, fetch_body. rewrite Hrange. simpl.
  rewrite Htopic. simpl. rewrite Hresponse. simpl. rewrite Hlisted. simpl.
  pose proof (normalize_all_well_sourced items) as Hall.
  destruct (forallb well_sourced items).
  - destruct Hall as (articles & -> & Hlen). exists articles. split; auto.
  - destruct Hall as [e ->]. exists []. split; reflexivity.
Qed.

Lemma fetch_articles_all_or_nothing_witness :
  let P := answering (Return two_raw) in
  let spoiled :=
    VDict [ (u "articles",
             VList [raw_article "zero"; VDict [(u "source", VNone)]]) ] in
  (exists articles,
     _fetch_articles [(u "topic", VStr (u "AI"))] = Return articles
     /\ length articles = 2)
  /\ (exists articles,
        @_fetch_articles (answering (Return spoiled)) [(u "topic", VStr (u "AI"))]
        = Return articles
        /\ length articles = 0).
Proof.
  intros P spoiled. split.
  - exact (@fetch_articles_all_or_nothing P [(u "topic", VStr (u "AI"))]
             _ _ _ _ eq_refl eq_refl eq_refl eq_refl).
  - exact (@fetch_articles_all_or_nothing (answering (Return spoiled))
             [(u "topic", VStr (u "AI"))] _ _ _ _ eq_refl eq_refl eq_refl eq_refl).
Defined.

Lemma normalized_source (article : pydict) :
  normalized article ->
  exists name, dict_get article (u "source") (VDict []) = VDict [(u "name", name)].
Proof.
  intros (title & description & url & name & publishedAt & content & ->).
  exists name. reflexivity.
Qed.

Lemma normalized_evaluation (articles : list pydict) :
  Forall normalized articles ->
  forall idx, length (articles_for_evaluation idx articles) = length articles.
Proof.
  induction 1 as [|article articles Ha _ IH]; intros idx; simpl; [reflexivity|].
  unfold evaluation_entry.
  destruct (normalized_source _ Ha) as [name ->]. simpl. rewrite IH. reflexivity.
Qed.

(** X10.  What [_fetch_articles] returns suits every agent downstream: the
    ranking leaves no fetched article out of its evaluation list, and for
    each article the prompt of the analysis and the prompt of the
    verification can be built, so the analysis is the parsed response of the
    LLM and the verification does call the LLM. *)
Theorem fetched_articles_prompts `{Runtime} `{Provider} (query : pydict)
    (articles : list pydict) :
  _fetch_articles query = Return articles ->
  length (articles_for_evaluation 0 articles) = length articles
  /\ forall article, In article articles ->
       (forall response,
          AnalysisAgent._analyze_article article (Return response)
          = _parse_json_response response AnalysisAgent.default_analysis)
       /\ exists k, process_article article = AwaitLLM k.
Proof.
  intros Hfetch. pose proof (fetch_normalized _ _ Hfetch) as Hn.
  split; [apply normalized_evaluation; exact Hn|].
  intros article Hin. rewrite Forall_forall in Hn.
  destruct (normalized_source _ (Hn _ Hin)) as [name Hsource].
  split.
  - intros response. unfold AnalysisAgent._analyze_article.
    rewrite Hsource. reflexivity.
  - unfold process_article, _verify_article. rewrite Hsource. simpl. eauto.
Qed.

Lemma fetched_articles_prompts_witness :
  let R := Samples.runtime [] [] [] in
  let P := answering (Return two_raw) in
  exists articles,
    _fetch_articles [(u "topic", VStr (u "AI"))] = Return articles
    /\ length articles = 2
    /\ length (articles_for_evaluation 0 articles) = length articles.
Proof.
  intros R P. eexists. split; [reflexivity|]. split; [reflexivity|].
  exact (proj1 (@fetched_articles_prompts R P [(u "topic", VStr (u "AI"))]
                  _ eq_refl)).
Defined.

(* ===================================================================== *)
(** * Further properties: the lists of the analysis *)
(* ===================================================================== *)

Import AnalysisAgent.

Lemma record_failure_lengths (r : results) :
  length (biases (record_failure r)) = S (length (biases r))
  /\ length (sentiment (record_failure r)) = S (length (sentiment r))
  /\ length (summaries (record_failure r)) = S (length (summaries r)).
Proof. unfold record_failure; simpl. rewrite !length_app. simpl. lia. Qed.

(** One turn of the loop appends one bias, one or two sentiments and at
    least as many summaries as sentiments, at most two. *)
Lemma analyze_one_lengths `{Runtime} (article : pydict) (llm : outcome pystr)
    (r : results) :
  let r' := analyze_one article llm r in
  length (biases r') = S (length (biases r))
  /\ S (length (sentiment r)) <= length (sentiment r')
  /\ length (sentiment r') + length (summaries r)
     <= length (summaries r') + length (sentiment r)
  /\ length (summaries r') <= 2 + length (summaries r).
Proof.
  cbv zeta. unfold analyze_one.
  destruct (_analyze_article article llm) as [analysis|e].
  - unfold record_analysis, seq, update, one, bind.
    destruct (getitem analysis (u "summary")) as [summary|?];
      [|pose proof (record_failure_lengths r); lia].
    destruct (getitem analysis (u "key_points")) as [kp|?];
      [destruct (iterate kp) as [kps|?]|];
      try (pose proof (record_failure_lengths (add_summaries r [summary]));
           unfold add_summaries in *; simpl in *; rewrite ?length_app in *;
           simpl in *; lia).
    destruct (getitem analysis (u "sentiment")) as [s|?];
      [|pose proof (record_failure_lengths
                      (add_key_points (add_summaries r [summary]) kps));
        unfold add_summaries, add_key_points in *; simpl in *;
        rewrite ?length_app in *; simpl in *; lia].
    destruct (getitem analysis (u "topics")) as [tp|?];
      [destruct (iterate tp) as [tps|?]|];
      try (pose proof (record_failure_lengths
                         (add_sentiment
                            (add_key_points (add_summaries r [summary]) kps) [s]));
           unfold add_summaries, add_key_points, add_sentiment in *; simpl in *;
           rewrite ?length_app in *; simpl in *; lia).
    destruct (getitem analysis (u "bias")) as [b|?].
    + unfold add_summaries, add_key_points, add_sentiment, add_topics, add_biases;
        simpl. rewrite ?length_app. simpl. lia.
    + pose proof (record_failure_lengths
                    (add_topics
                       (add_sentiment
                          (add_key_points (add_summaries r [summary]) kps) [s]) tps)).
      unfold add_summaries, add_key_points, add_sentiment, add_topics in *;
        simpl in *; rewrite ?length_app in *; simpl in *; lia.
  - pose proof (record_failure_lengths r). lia.
Qed.

Lemma analyze_from_lengths `{Runtime} (articles : list pydict)
    (llm : nat -> outcome pystr) :
  forall i r,
  let r' := analyze_from i articles llm r in
  length (biases r') = length articles + length (biases r)
  /\ length articles + length (sentiment r) <= length (sentiment r')
  /\ length (sentiment r') + length (summaries r)
     <= length (summaries r') + length (sentiment r)
  /\ length (summaries r') <= 2 * length articles + length (summaries r).
Proof.
  induction articles as [|article rest IH]; intros i r; cbv zeta.
  - simpl. lia.
  - cbn [analyze_from length].
    pose proof (analyze_one_lengths article (llm i) r) as Hone. cbv zeta in Hone.
    specialize (IH (S i) (analyze_one article (llm i) r)). cbv zeta in IH.
    lia.
Qed.

(** X11.  Whatever the LLM answers, after the loop of [process] over [n]
    articles the list [biases] has exactly [n] entries, [sentiment] has at
    least [n], [summaries] has at least as many as [sentiment], and at most
    [2 n]. *)
Theorem analysis_list_lengths `{Runtime} (articles : list pydict)
    (llm : nat -> outcome pystr) :
  let r := analyze_all articles llm in
  length (biases r) = length articles
  /\ length articles <= length (sentiment r)
  /\ length (sentiment r) <= length (summaries r)
  /\ length (summaries r) <= 2 * length articles.
Proof.
  cbv zeta. unfold analyze_all.
  pose proof (analyze_from_lengths articles llm 0 empty_results) as Hl.
  cbv zeta in Hl. simpl in Hl. lia.
Qed.

(** X12.  A response that cannot be cleaned and decoded counts as a failed
    analysis, exactly as a call that raises: the turn of the loop appends the
    five placeholders and nothing else.  The same holds for the overall
    analysis, which is then the default one. *)
Theorem analysis_unusable_response `{Runtime} (articles : list pydict)
    (article : pydict) (llm : outcome pystr) (llms : nat -> outcome pystr)
    (r : results) :
  raises llm \/ (exists response, llm = Return response /\ undecodable response) ->
  analyze_one article llm r = record_failure r
  /\ dict_lookup (AnalysisAgent.process articles llms llm) (u "overall_analysis")
     = Some _get_default_overall_analysis.
Proof.
  intros Hllm. split.
  - unfold analyze_one, _analyze_article.
    destruct (get _ _ _) as [name|e]; [|reflexivity]. simpl.
    destruct Hllm as [[e ->] | (response & -> & e & He)]; [reflexivity|].
    simpl. rewrite (parse_failure _ _ _ He). reflexivity.
  - unfold AnalysisAgent.process, _perform_overall_analysis.
    destruct Hllm as [[e ->] | (response & -> & e & He)]; [reflexivity|].
    simpl. rewrite (parse_failure _ _ _ He). reflexivity.
Qed.

Lemma analysis_unusable_response_witness :
  let R := Samples.runtime [] [] [] in
  let llm := Return (u "I cannot analyse this.") in
  analyze_one (Samples.article "zero" "http://a/0") llm empty_results
  = record_failure empty_results
  /\ dict_lookup (AnalysisAgent.process Samples.three_articles (fun _ => llm) llm)
       (u "overall_analysis")
     = Some _get_default_overall_analysis.
Proof.
  intros R llm.
  apply (@analysis_unusable_response R).
  right. eexists. split; [reflexivity|]. eexists. reflexivity.
Defined.

(* ===================================================================== *)
(** * Further properties: the shape and the order of the verifications *)
(* ===================================================================== *)

Lemma default_verification_well_formed :
  well_formed_verification _get_default_verification.
Proof. exists [], [], 0%Q, 0%Q, 0%Q, (u "Verification failed"). reflexivity. Qed.

Lemma list_or_empty (v : pyval) :
  exists l, (if is_list v then v else VList []) = VList l.
Proof. destruct v; simpl; eauto. Qed.

Lemma copy_verification_shape `{Runtime} (response : pystr) (v : pyval) :
  copy_verification response = Return v -> well_formed_verification v.
Proof.
  unfold copy_verification. intros Hc.
  apply bind_return in Hc as (parsed & _ & Hc).
  apply bind_return in Hc as (verified & _ & Hc).
  apply bind_return in Hc as (unverified & _ & Hc).
  apply bind_return in Hc as (cred & _ & Hc).
  apply bind_return in Hc as (assessment & Ha & Hc).
  apply bind_return in Hc as (summary & _ & Hc).
  injection Hc as <-.
  destruct (list_or_empty verified) as [vs ->].
  destruct (list_or_empty unverified) as [us ->].
  destruct (is_dict cred).
  - apply bind_return in Ha as (sc_raw & _ & Ha).
    apply bind_return in Ha as (sc & _ & Ha).
    apply bind_return in Ha as (eq_raw & _ & Ha).
    apply bind_return in Ha as (eq & _ & Ha).
    apply bind_return in Ha as (orl_raw & _ & Ha).
    apply bind_return in Ha as (orl & _ & Ha).
    injection Ha as <-.
    exists vs, us, sc, eq, orl, (str summary). reflexivity.
  - injection Ha as <-.
    exists vs, us, 0%Q, 0%Q, 0%Q, (str summary). reflexivity.
Qed.

(** Whatever its call does, the task of an article ends with a result for
    that article whose verification is well formed. *)
Lemma final_result_shape `{Runtime} (article : pydict) (llm : outcome pystr) :
  exists result,
    final_result article llm = Return result /\ fact_checked article result.
Proof.
  unfold final_result, process_article, _verify_article.
  destruct (get _ _ _) as [name|e].
  - unfold guarded.
    destruct llm as [response|e]; simpl.
    + destruct (copy_verification response) as [v|e] eqn:Hc; simpl.
      * eexists. split; [reflexivity|]. exists v. split; [reflexivity|].
        eapply copy_verification_shape; eauto.
      * eexists. split; [reflexivity|]. eexists. split; [reflexivity|].
        apply default_verification_well_formed.
    + eexists. split; [reflexivity|]. eexists. split; [reflexivity|].
      apply default_verification_well_formed.
  - simpl. eexists. split; [reflexivity|]. eexists. split; [reflexivity|].
    apply default_verification_well_formed.
Qed.

Lemma step_shaped `{Runtime} (articles : list pydict) (p p' : pool) (ev : event) :
  Forall2 task_shaped articles (tasks p) -> step articles p ev = Some p' ->
  Forall2 task_shaped articles (tasks p').
Proof.
  intros Htasks Hstep. destruct ev as [i | i llm]; simpl in Hstep.
  - destruct (nth_error (tasks p) i) as [[| |]|] eqn:Ht; try discriminate.
    destruct (nth_error articles i) as [article|] eqn:Ha; try discriminate.
    destruct (semaphore p) as [|free]; try discriminate.
    pose proof (final_result_shape article (Raise transport_error)) as Hshape.
    unfold final_result in Hshape.
    destruct (process_article article) as [r|k] eqn:Hbody;
      injection Hstep as <-; simpl;
      eapply Forall2_set_nth; eauto.
  - destruct (nth_error (tasks p) i) as [[|k|]|] eqn:Ht; try discriminate.
    injection Hstep as <-; simpl.
    assert (Hlen : i < length articles).
    { rewrite (Forall2_length Htasks). apply nth_error_Some. congruence. }
    destruct (nth_error articles i) as [article|] eqn:Ha;
      [| apply nth_error_None in Ha; lia].
    pose proof (Forall2_nth_error _ _ _ Htasks i _ _ Ha Ht) as Hk. simpl in Hk.
    pose proof (final_result_shape article llm) as Hshape.
    unfold final_result in Hshape. rewrite Hk in Hshape.
    eapply Forall2_set_nth; eauto.
Qed.

Lemma run_shaped `{Runtime} (articles : list pydict) (evs : list event) :
  forall p p', Forall2 task_shaped articles (tasks p) ->
  run articles p evs = Some p' -> Forall2 task_shaped articles (tasks p').
Proof.
  induction evs as [|ev evs IH]; intros p p' Hp; simpl.
  - intros [= <-]. exact Hp.
  - destruct (step articles p ev) as [q|] eqn:Hstep; [|discriminate].
    apply IH. eapply step_shaped; eauto.
Qed.

Lemma start_shaped `{Runtime} (articles : list pydict) :
  Forall2 task_shaped articles (tasks (start articles)).
Proof. unfold start; simpl. induction articles; simpl; constructor; simpl; auto. Qed.

Lemma gather_shaped `{Runtime} (articles : list pydict) (ts : list task) :
  Forall2 task_shaped articles ts ->
  forall results, gather ts = Some (Return results) ->
  Forall2 fact_checked articles results.
Proof.
  induction 1 as [|article t articles ts Ht Hts IH]; intros results; simpl.
  - intros [= <-]. constructor.
  - destruct t as [|k|[v|e]]; try discriminate.
    destruct (gather ts) as [[vs|e]|]; try discriminate.
    intros [= <-]. simpl in Ht. destruct Ht as (result & [= <-] & Hv).
    constructor; auto.
Qed.

(** What the dict built for an article lets one read. *)
Lemma fact_checked_verified (article : pydict) (result : pyval) :
  fact_checked article result -> verified_result article result.
Proof.
  intros (v & -> & Hv). unfold verified_result.
  split; [reflexivity|]. split; [reflexivity|].
  exists v. split; [reflexivity | exact Hv].
Qed.

(** X13.  Whatever the schedule and whatever the LLM answers, the list
    [process] of the fact checker returns has one entry per article, and in
    the entry at each position one reads the article of that position under
    [article_data], its url under [article_url], and under
    [verification_results] a verification of the promised shape: two lists
    of claims, three credibility scores that are floats, and a summary that
    is a string. *)
Theorem verification_results_well_formed `{Runtime} (articles : list pydict)
    (evs : list event) (results : list pyval) :
  process_returns articles evs (Return results) ->
  length results = length articles
  /\ Forall2 verified_result articles results.
Proof.
  intros (p & Hrun & Hg).
  assert (Hc : Forall2 fact_checked articles results).
  { eapply gather_shaped; [|exact Hg].
    eapply run_shaped; [apply start_shaped | exact Hrun]. }
  split; [symmetry; eapply Forall2_length; exact Hc|].
  eapply Forall2_impl; [|exact Hc].
  intros article result Hr. apply fact_checked_verified. exact Hr.
Qed.

(** Three documents run one after the other: each entry of the result lets
    one read its document and a verification of the promised shape. *)
Lemma verification_results_well_formed_witness :
  let R := verification_runtime in
  exists results,
    process_returns Samples.three_articles
      (sequential 0 Samples.three_articles sample_llm) (Return results)
    /\ map (fun result => getitem result (u "article_data")) results
       = map (fun article => Return (VDict article)) Samples.three_articles
    /\ length results = 3
    /\ Forall2 verified_result Samples.three_articles results.
Proof.
  intros R.
  assert (Hret : exists results,
             process_returns Samples.three_articles
               (sequential 0 Samples.three_articles sample_llm) (Return results)
             /\ map (fun result => getitem result (u "article_data")) results
                = map (fun article => Return (VDict article))
                      Samples.three_articles).
  { eexists. split; [eexists; split; reflexivity | reflexivity]. }
  destruct Hret as (results & Hret & Hmap). exists results.
  split; [exact Hret|]. split; [exact Hmap|].
  exact (@verification_results_well_formed R _ _ _ Hret).
Defined.

Lemma start_under `{Runtime} (llm : nat -> outcome pystr) (articles : list pydict) :
  under llm articles (start articles).
Proof.
  intros i article t _ Ht. unfold start in Ht; simpl in Ht.
  apply nth_error_In in Ht. apply in_map_iff in Ht as (a & <- & _). exact I.
Qed.

Lemma step_under `{Runtime} (llm : nat -> outcome pystr) (articles : list pydict)
    (p p' : pool) (ev : event) :
  under llm articles p -> delivers llm ev -> step articles p ev = Some p' ->
  under llm articles p'.
Proof.
  intros Hp Hev Hstep j article t Ha Ht.
  destruct (Nat.eq_dec (event_task ev) j) as [Hj | Hj].
  - destruct ev as [i | i l]; simpl in Hj, Hstep; subst j.
    + destruct (nth_error (tasks p) i) as [[| |]|] eqn:Hold; try discriminate.
      rewrite Ha in Hstep.
      destruct (semaphore p) as [|free]; try discriminate.
      destruct (process_article article) as [r|k] eqn:Hbody;
        injection Hstep as <-; simpl in Ht;
        rewrite (nth_error_set_nth_eq _ _ _ _ Hold) in Ht;
        injection Ht as <-; simpl.
      * unfold final_result. rewrite Hbody. reflexivity.
      * exact Hbody.
    + destruct (nth_error (tasks p) i) as [[|k|]|] eqn:Hold; try discriminate.
      injection Hstep as <-; simpl in Ht.
      rewrite (nth_error_set_nth_eq _ _ _ _ Hold) in Ht. injection Ht as <-.
      pose proof (Hp i article _ Ha Hold) as Hk. simpl in Hk, Hev |- *.
      unfold final_result. rewrite Hk, Hev. reflexivity.
  - apply (Hp j article t Ha).
    rewrite <- Ht. symmetry. eapply step_others; eauto.
Qed.

Lemma run_under `{Runtime} (llm : nat -> outcome pystr) (articles : list pydict)
    (evs : list event) :
  forall p p', under llm articles p -> Forall (delivers llm) evs ->
  run articles p evs = Some p' -> under llm articles p'.
Proof.
  induction evs as [|ev evs IH]; intros p p' Hp Hevs; simpl.
  - intros [= <-]. exact Hp.
  - inversion Hevs as [|ev' evs' Hev Hrest]; subst.
    destruct (step articles p ev) as [q|] eqn:Hstep; [|discriminate].
    apply IH; [eapply step_under; eauto | exact Hrest].
Qed.

Lemma finished_under `{Runtime} (llm : nat -> outcome pystr)
    (articles : list pydict) (p1 p2 : pool) :
  under llm articles p1 -> under llm articles p2 ->
  length (tasks p1) = length articles -> length (tasks p2) = length articles ->
  Forall finished (tasks p1) -> Forall finished (tasks p2) ->
  tasks p1 = tasks p2.
Proof.
  intros Hu1 Hu2 Hl1 Hl2 Hf1 Hf2. apply nth_error_ext. intros i.
  destruct (nth_error articles i) as [article|] eqn:Ha.
  - assert (Hi : i < length articles) by (apply nth_error_Some; congruence).
    destruct (nth_error (tasks p1) i) as [t1|] eqn:H1;
      [| apply nth_error_None in H1; lia].
    destruct (nth_error (tasks p2) i) as [t2|] eqn:H2;
      [| apply nth_error_None in H2; lia].
    rewrite Forall_forall in Hf1, Hf2.
    destruct (Hf1 _ (nth_error_In _ _ H1)) as [r1 ->].
    destruct (Hf2 _ (nth_error_In _ _ H2)) as [r2 ->].
    pose proof (Hu1 _ _ _ Ha H1) as E1. pose proof (Hu2 _ _ _ Ha H2) as E2.
    simpl in E1, E2. congruence.
  - apply nth_error_None in Ha.
    assert (H1 : nth_error (tasks p1) i = None) by (apply nth_error_None; lia).
    assert (H2 : nth_error (tasks p2) i = None) by (apply nth_error_None; lia).
    congruence.
Qed.

(** X14.  The result of [process] of the fact checker does not depend on the
    schedule: two runs in which the call made for each article does the same
    return the same list, in whatever order the tasks took their slots and
    their calls completed. *)
Theorem verification_schedule_independent `{Runtime} (articles : list pydict)
    (llm : nat -> outcome pystr) (evs1 evs2 : list event)
    (result1 result2 : outcome (list pyval)) :
  Forall (delivers llm) evs1 -> Forall (delivers llm) evs2 ->
  process_returns articles evs1 result1 ->
  process_returns articles evs2 result2 ->
  result1 = result2.
Proof.
  intros Hd1 Hd2 (p1 & Hrun1 & Hg1) (p2 & Hrun2 & Hg2).
  destruct (reachable_sound _ _ _ Hrun1) as [_ Ht1].
  destruct (reachable_sound _ _ _ Hrun2) as [_ Ht2].
  destruct (gather_done _ _ Ht1 _ Hg1) as [Hf1 _].
  destruct (gather_done _ _ Ht2 _ Hg2) as [Hf2 _].
  assert (Heq : tasks p1 = tasks p2).
  { apply (finished_under llm articles); auto.
    - eapply run_under; [apply start_under | exact Hd1 | exact Hrun1].
    - eapply run_under; [apply start_under | exact Hd2 | exact Hrun2].
    - symmetry. eapply Forall2_length; eauto.
    - symmetry. eapply Forall2_length; eauto. }
  rewrite Heq in Hg1. congruence.
Qed.

Lemma verification_schedule_independent_witness :
  let R := verification_runtime in
  let evs1 := sequential 0 Samples.three_articles sample_llm in
  let evs2 := [ Acquire 0; Acquire 1; Acquire 2;
                Complete 2 (sample_llm 2); Complete 0 (sample_llm 0);
                Complete 1 (sample_llm 1) ] in
  exists result1 result2,
    process_returns Samples.three_articles evs1 result1
    /\ process_returns Samples.three_articles evs2 result2
    /\ result1 = result2.
Proof.
  intros R evs1 evs2.
  assert (H1 : exists result, process_returns Samples.three_articles evs1 result).
  { eexists. eexists. split; reflexivity. }
  assert (H2 : exists result, process_returns Samples.three_articles evs2 result).
  { eexists. eexists. split; reflexivity. }
  destruct H1 as [result1 H1]. destruct H2 as [result2 H2].
  exists result1, result2. split; [exact H1|]. split; [exact H2|].
  apply (@verification_schedule_independent R Samples.three_articles sample_llm
           evs1 evs2 result1 result2); auto.
  - repeat constructor.
  - repeat constructor.
Defined.

Lemma collect_one_verified `{Runtime} (article : pydict) (result : pyval)
    (c : ReportAgent.claims) :
  fact_checked article result ->
  exists c', ReportAgent.collect_one result c = Return c'
             /\ length (ReportAgent.credibility_scores c')
                = S (length (ReportAgent.credibility_scores c)).
Proof.
  intros (v & -> & verified & unverified & sc & eq & orl & summary & ->).
  eexists. split; [reflexivity|]. simpl. rewrite length_app. simpl. lia.
Qed.

Lemma collect_verified `{Runtime} (articles : list pydict) (results : list pyval) :
  Forall2 fact_checked articles results ->
  forall c, exists c',
    ReportAgent.collect results c = Return c'
    /\ length (ReportAgent.credibility_scores c')
       = length articles + length (ReportAgent.credibility_scores c).
Proof.
  induction 1 as [|article result articles results Hr _ IH]; intros c; simpl.
  - eauto.
  - destruct (collect_one_verified article result c Hr) as (c1 & -> & Hlen). simpl.
    destruct (IH c1) as (c' & -> & Hlen'). exists c'. split; [reflexivity | lia].
Qed.

(** X15.  The report agent can read what the fact checker returns: on the
    list returned by [process] of the fact checker, the loop of
    [_generate_detailed_analysis] over [fact_check_results] does not raise
    and collects one triple of credibility scores for each article. *)
Theorem detailed_analysis_reads_verifications `{Runtime} (articles : list pydict)
    (evs : list event) (results : list pyval) :
  process_returns articles evs (Return results) ->
  exists c,
    ReportAgent.collect results (ReportAgent.Claims [] [] []) = Return c
    /\ length (ReportAgent.credibility_scores c) = length articles.
Proof.
  intros (p & Hrun & Hg).
  assert (Hv : Forall2 fact_checked articles results).
  { eapply gather_shaped; [|exact Hg].
    eapply run_shaped; [apply start_shaped | exact Hrun]. }
  destruct (collect_verified _ _ Hv (ReportAgent.Claims [] [] []))
    as (c & Hc & Hlen).
  exists c. split; [exact Hc | simpl in Hlen; lia].
Qed.

Lemma detailed_analysis_reads_verifications_witness :
  let R := verification_runtime in
  exists results c,
    process_returns Samples.three_articles
      (sequential 0 Samples.three_articles sample_llm) (Return results)
    /\ ReportAgent.collect results (ReportAgent.Claims [] [] []) = Return c
    /\ length (ReportAgent.credibility_scores c) = 3.
Proof.
  intros R.
  assert (Hret : exists results,
             process_returns Samples.three_articles
               (sequential 0 Samples.three_articles sample_llm) (Return results)).
  { eexists. eexists. split; reflexivity. }
  destruct Hret as (results & Hret).
  destruct (@detailed_analysis_reads_verifications R _ _ _ Hret) as (c & Hc & Hlen).
  exists results, c. split; [exact Hret|]. split; [exact Hc | exact Hlen].
Defined.

(* ===================================================================== *)
(** * Further properties: rendering and saving the report *)
(* ===================================================================== *)

Import Rendering Assembly.

Lemma In_lstrip (c : N) (s : pystr) : In c (lstrip s) -> In c s.
Proof.
  induction s as [|x t IH]; simpl; [tauto|].
  destruct (is_space x); [right; auto | simpl; tauto].
Qed.

Lemma In_strip (c : N) (s : pystr) : In c (strip s) -> In c s.
Proof.
  unfold strip, rstrip. intros Hin.
  apply In_lstrip. apply in_rev. apply In_lstrip. apply in_rev in Hin. exact Hin.
Qed.

(** X16.  The name [_save_report] makes from the topic consists of letters,
    digits, hyphens and underscores only: no space, no dot, and no slash or
    backslash, so the file lands in the directory [reports] itself. *)
Theorem clean_topic_characters `{Unicode} (topic : pystr) (c : N) :
  In c (clean_topic topic) ->
  name_character c
  /\ c <> 32%N /\ c <> 46%N /\ c <> 47%N /\ c <> 92%N.
Proof.
  unfold clean_topic, spaces_to_underscores. intros Hin.
  apply in_map_iff in Hin as (x & Hc & Hx).
  apply In_strip in Hx. apply filter_In in Hx as [_ Hkept].
  assert (Hname : name_character c).
  { unfold name_character. destruct (N.eq_dec x 32) as [Hx32|Hx32].
    - rewrite (proj2 (N.eqb_eq x 32) Hx32) in Hc. auto.
    - rewrite (proj2 (N.eqb_neq x 32) Hx32) in Hc. subst c.
      unfold kept_in_name in Hkept.
      repeat (apply orb_prop in Hkept as [Hkept | Hkept]).
      + left. exact Hkept.
      + apply N.eqb_eq in Hkept. congruence.
      + apply N.eqb_eq in Hkept. auto.
      + apply N.eqb_eq in Hkept. auto. }
  split; [exact Hname|].
  repeat split; intros ->; destruct Hname as [Ha | [Hh | Hu]];
    try discriminate; cbv in Ha; discriminate.
Qed.

Lemma clean_topic_characters_witness :
  let U := ascii_only in
  clean_topic (u " AI: what/next? ") = u "AI_whatnext"
  /\ name_character 95%N.
Proof.
  intros U. split; [reflexivity|].
  apply (@clean_topic_characters U (u " AI: what/next? ") 95%N).
  cbv. tauto.
Defined.

Lemma loads_or_unanswered `{Runtime} (response : pystr) (dflt : pyval) :
  raises (json_loads response) ->
  ReportAgent.loads_or response dflt = Return dflt
  \/ raises (ReportAgent.loads_or response dflt).
Proof.
  intros [e He]. unfold ReportAgent.loads_or. rewrite He. simpl.
  destruct (is_JSONDecodeError e); [left; reflexivity | right; eexists; reflexivity].
Qed.

Lemma executive_summary_unanswered `{Runtime} (data : pydict) (llm : outcome pystr) :
  unanswered llm ->
  exists s, ReportAgent._generate_executive_summary data llm
            = Return (ReportAgent.summary_with s).
Proof.
  intros Hllm. unfold ReportAgent._generate_executive_summary. cbv zeta.
  destruct (len _); simpl; [|eauto].
  destruct (get _ (u "overall_analysis") _); simpl; [|eauto].
  destruct (get _ (u "key_points") _); simpl; [|eauto].
  destruct llm as [response|e]; simpl; [|eauto].
  destruct (loads_or_unanswered response (ReportAgent.summary_with []) Hllm)
    as [-> | [e ->]]; simpl; eauto.
Qed.

Lemma detailed_analysis_unanswered `{Runtime} (data : pydict) (llm : outcome pystr) :
  unanswered llm ->
  ReportAgent._generate_detailed_analysis data llm
  = Return ReportAgent.empty_detailed_analysis.
Proof.
  intros Hllm. unfold ReportAgent._generate_detailed_analysis.
  destruct (iterate _) as [results|?]; simpl; [|reflexivity].
  destruct (ReportAgent.collect _ _); simpl; [|reflexivity].
  destruct llm as [response|e]; simpl; [|reflexivity].
  destruct (loads_or_unanswered response ReportAgent.empty_detailed_analysis Hllm)
    as [-> | [e ->]]; reflexivity.
Qed.

Lemma recommendations_list `{Runtime} (data report : pydict) (llm : outcome pystr) :
  exists recs,
    ReportAgent._generate_recommendations data report llm = Return (VList recs)
    /\ (unanswered llm -> recs = []).
Proof.
  unfold ReportAgent._generate_recommendations.
  destruct llm as [response|e]; simpl; [|exists []; split; auto].
  destruct (json_loads response) as [[| | | | |l|d]|e] eqn:Hloads; simpl;
    try (exists []; split; [reflexivity | auto]).
  - exists l. split; [reflexivity|]. intros [e He]. discriminate.
  - destruct (is_JSONDecodeError e); simpl; exists []; split; auto.
Qed.

(** The report [process] compiles when the articles can be counted. *)
Lemma process_report `{Runtime} (data : pydict) (llm1 llm2 llm3 : outcome pystr)
    (n : nat) :
  len (dict_get data (u "articles") (VList [])) = Return n ->
  exists es da recs,
    ReportAgent._generate_executive_summary data llm1 = Return es
    /\ ReportAgent._generate_detailed_analysis data llm2 = Return da
    /\ (forall report,
          ReportAgent._generate_recommendations data report llm3
          = Return (VList recs))
    /\ ReportAgent.process data llm1 llm2 llm3
       = Return (report_of es da n data (VList recs)).
Proof.
  intros Hlen.
  destruct (executive_summary_returns data llm1) as [es Hes].
  destruct (detailed_analysis_returns data llm2) as [da Hda].
  destruct (recommendations_list data [] llm3) as (recs & Hrecs & _).
  exists es, da, recs. split; [exact Hes|]. split; [exact Hda|].
  assert (Hall : forall report,
             ReportAgent._generate_recommendations data report llm3
             = Return (VList recs)) by (intros report; exact Hrecs).
  split; [exact Hall|].
  unfold ReportAgent.process, ReportAgent.process_body.
  rewrite Hes, Hda. simpl. rewrite Hlen. simpl. rewrite Hall. reflexivity.
Qed.

(** X17.  [process] of the report agent returns the fixed failure report
    exactly when the articles of its input cannot be counted.  Otherwise the
    report holds what the first two sub-steps returned, a metadata section
    with the number of articles, the timestamp and the topic of the input,
    and recommendations that are always a list. *)
Theorem report_process_structure `{Runtime} (data : pydict)
    (llm1 llm2 llm3 : outcome pystr) :
  (forall n, len (dict_get data (u "articles") (VList [])) = Return n ->
     exists es da recs,
       ReportAgent._generate_executive_summary data llm1 = Return es
       /\ ReportAgent._generate_detailed_analysis data llm2 = Return da
       /\ ReportAgent.process data llm1 llm2 llm3
          = Return (report_of es da n data (VList recs)))
  /\ (raises (len (dict_get data (u "articles") (VList [])))
      <-> ReportAgent.process data llm1 llm2 llm3
          = Return ReportAgent.failure_report).
Proof.
  split.
  - intros n Hlen.
    destruct (process_report data llm1 llm2 llm3 n Hlen)
      as (es & da & recs & Hes & Hda & _ & Hp).
    exists es, da, recs. auto.
  - split.
    + intros [e He]. unfold ReportAgent.process, ReportAgent.process_body.
      destruct (executive_summary_returns data llm1) as [es ->].
      destruct (detailed_analysis_returns data llm2) as [da ->].
      simpl. rewrite He. reflexivity.
    + intros Hfail.
      destruct (len (dict_get data (u "articles") (VList []))) as [n|e] eqn:Hlen;
        [|eexists; reflexivity].
      destruct (process_report data llm1 llm2 llm3 n Hlen)
        as (es & da & recs & _ & _ & _ & Hp).
      rewrite Hp in Hfail. discriminate.
Qed.

Lemma format_fallback_report `{Runtime} (s stamp topic : pystr) (n : nat)
    (data : pydict) :
  returns (Rendering._format_report_markdown stamp
             (report_of (ReportAgent.summary_with s)
                ReportAgent.empty_detailed_analysis n data (VList []))
             topic).
Proof. eexists. reflexivity. Qed.

Lemma format_failure_report `{Runtime} (stamp topic : pystr) :
  returns (Rendering._format_report_markdown stamp ReportAgent.failure_report topic).
Proof. eexists. reflexivity. Qed.

(** X18.  When none of the three calls of the report agent gives a text that
    [json.loads] decodes, the report it returns is one that
    [_format_report_markdown] renders without raising, whatever the input of
    the report agent was. *)
Theorem report_renders_when_unanswered `{Runtime} (data : pydict)
    (llm1 llm2 llm3 : outcome pystr) (stamp topic : pystr) :
  unanswered llm1 -> unanswered llm2 -> unanswered llm3 ->
  exists report,
    ReportAgent.process data llm1 llm2 llm3 = Return report
    /\ returns (Rendering._format_report_markdown stamp report topic).
Proof.
  intros H1 H2 H3.
  destruct (len (dict_get data (u "articles") (VList []))) as [n|e] eqn:Hlen.
  - destruct (process_report data llm1 llm2 llm3 n Hlen)
      as (es & da & recs & Hes & Hda & Hrecs & Hp).
    destruct (executive_summary_unanswered data llm1 H1) as [s Hs].
    rewrite (detailed_analysis_unanswered data llm2 H2) in Hda.
    destruct (recommendations_list data [] llm3) as (recs' & Hrecs' & Hnil).
    rewrite Hrecs in Hrecs'. injection Hrecs' as <-.
    rewrite (Hnil H3) in Hp. rewrite Hs in Hes.
    injection Hes as <-. injection Hda as <-.
    eexists. split; [exact Hp | apply format_fallback_report].
  - exists ReportAgent.failure_report. split; [|apply format_failure_report].
    unfold ReportAgent.process, ReportAgent.process_body.
    destruct (executive_summary_returns data llm1) as [es ->].
    destruct (detailed_analysis_returns data llm2) as [da ->].
    simpl. rewrite Hlen. reflexivity.
Qed.

Lemma report_renders_when_unanswered_witness :
  let R := report_runtime in
  let llm := Return (u "Here is the summary you asked for.") in
  exists report,
    ReportAgent.process data_without_articles llm llm llm = Return report
    /\ returns (Rendering._format_report_markdown (u "2025-05-19 10:00:05")
                  report (u "AI")).
Proof.
  intros R llm.
  apply (@report_renders_when_unanswered R); eexists; reflexivity.
Defined.

Lemma report_process_structure_witness :
  let R := report_runtime in
  let llm := Return object_text in
  let data := [ (u "topic", VStr (u "AI"));
                (u "articles", VList (map VDict Samples.three_articles)) ] in
  (exists es da recs,
     ReportAgent._generate_executive_summary data llm = Return es
     /\ ReportAgent._generate_detailed_analysis data llm = Return da
     /\ ReportAgent.process data llm llm llm
        = Return (report_of es da 3 data (VList recs)))
  /\ ReportAgent.process data_without_articles llm llm llm
     = Return ReportAgent.failure_report.
Proof.
  intros R llm data. split.
  - apply (proj1 (@report_process_structure R data llm llm llm) 3). reflexivity.
  - apply (proj2 (@report_process_structure R data_without_articles llm llm llm)).
    eexists. reflexivity.
Defined.

(* ===================================================================== *)
(** * Further properties: the coordinator with its agents *)
(* ===================================================================== *)

Lemma research_topic_result `{Runtime} (c : collaborators) (topic : pystr)
    (time_range : pyval) (w w' : world) (r : outcome pyval) :
  research_body c topic time_range w = (w', r) ->
  research_topic c topic time_range w =
  match r with
  | Return report => (w', Return report)
  | Raise e =>
      (World (trace w') (S (readings w')),
       Return (error_report topic e (now c (readings w'))))
  end.
Proof.
  intros Hbody. unfold research_topic, ptry. rewrite Hbody.
  destruct r; reflexivity.
Qed.

Lemma search_stage_without_range `{Runtime} `{Provider} (llm : outcome pystr)
    (topic : pystr) (time_range : pyval) :
  is_dict time_range = false ->
  search_stage llm (query topic time_range) = Return (VList []).
Proof.
  intros Hrange. unfold search_stage, query, search, _fetch_articles, fetch_body.
  assert (Hd : raises (date_range [ (u "topic", VStr topic);
                                    (u "time_range", time_range) ])).
  { unfold date_range.
    change (dict_lookup _ (u "time_range")) with (Some time_range).
    destruct time_range; try discriminate; eexists; reflexivity. }
  destruct Hd as [e ->]. reflexivity.
Qed.

(** X19.  Called without a time range, or with one that is no dict,
    [research_topic] reports that no articles were found, whatever the news
    provider holds and whatever the LLM would answer: the query it builds
    always has the key [time_range], reading the start of the range raises
    inside [_fetch_articles], and the search returns the empty list.  The
    search is then the only stage invoked. *)
Theorem research_topic_without_time_range `{Runtime} `{Provider}
    (c : collaborators) (llm : outcome pystr) (topic : pystr) (time_range : pyval) :
  search_agent c = search_stage llm ->
  is_dict time_range = false ->
  research_topic c topic time_range idle
  = (World [Call Search (query topic time_range)] 1,
     Return (no_articles_report topic (now c 0))).
Proof.
  intros Hsearch Hrange.
  pose proof (research_body_cases c topic time_range idle) as Hc. cbv zeta in Hc.
  rewrite Hsearch, (search_stage_without_range llm topic time_range Hrange) in Hc.
  simpl in Hc. rewrite (research_topic_result _ _ _ _ _ _ Hc). reflexivity.
Qed.

Lemma research_topic_without_time_range_witness :
  let R := Samples.ranking_runtime in
  let P := answering (Return two_raw) in
  let U := ascii_only in
  let F := writable in
  let c := assembled (unavailable transport_error) sample_clock
             (u "2025-05-19 10:00:05") (u "2025-05-19_100005") in
  research_topic c (u "AI") VNone idle
  = (World [Call Search (query (u "AI") VNone)] 1,
     Return (no_articles_report (u "AI") (u "2025-05-19T10:00:00"))).
Proof.
  intros R P U F c.
  exact (@research_topic_without_time_range R P c (Raise transport_error)
           (u "AI") VNone eq_refl eq_refl).
Defined.

(** X20.  A decoded executive summary without [main_findings] costs the whole
    report: when the text the LLM gives for the summary decodes to a value in
    which [main_findings] cannot be read, [_format_report_markdown] raises,
    so [research_topic] returns its error report rather than the report the
    report agent built, and [_save_report] is not invoked. *)
Theorem research_topic_summary_without_findings `{Runtime} (c : collaborators)
    (topic : pystr) (time_range : pyval) (articles : list pyval)
    (analysis : pydict) (response stamp : pystr) (llm2 llm3 : outcome pystr)
    (es : pyval) (e : exn) :
  search_agent c (query topic time_range) = Return (VList articles) ->
  articles <> [] ->
  analysis_agent c (VList articles) = Return (VDict analysis) ->
  report_agent c = report_stage (Return response) llm2 llm3 ->
  Coordinator._format_report_markdown c = Rendering._format_report_markdown stamp ->
  json_loads response = Return es ->
  getitem es (u "main_findings") = Raise e ->
  let run := research_topic c topic time_range idle in
  stages_of (fst run) = [Search; Analysis; Synthesis; Format]
  /\ snd run = Return (error_report topic e (now c 1)).
Proof.
  intros Hsearch Hne Hanalysis Hreport Hformat Hloads Hfindings. cbv zeta.
  pose proof (research_body_cases c topic time_range idle) as Hc. cbv zeta in Hc.
  rewrite Hsearch in Hc.
  assert (Htruthy : truthy (VList articles) = true)
    by (destruct articles; [congruence | reflexivity]).
  rewrite Htruthy, Hanalysis, Hreport, Hformat in Hc.
  set (data := [ (u "topic", VStr topic);
                 (u "timestamp", VStr (now c (readings idle)));
                 (u "articles", VList articles);
                 (u "analysis", VDict analysis) ]) in *.
  change (report_data topic (now c (readings idle)) (VList articles)
            (VDict analysis)) with (VDict data) in Hc.
  cbn [report_stage] in Hc.
  destruct (process_report data (Return response) llm2 llm3 (length articles)
              eq_refl) as (es' & da & recs & Hes & _ & _ & Hp).
  assert (Hes' : es' = es).
  { unfold ReportAgent._generate_executive_summary in Hes. cbv zeta in Hes.
    change (dict_get data (u "analysis") (VDict [])) with (VDict analysis) in Hes.
    change (dict_get data (u "articles") (VList [])) with (VList articles) in Hes.
    cbn [len get bind try_except] in Hes.
    unfold ReportAgent.loads_or in Hes. rewrite Hloads in Hes.
    cbn [try_except] in Hes. congruence. }
  subst es'. rewrite Hp in Hc.
  assert (Hraise : Rendering._format_report_markdown stamp
                     (report_of es da (length articles) data (VList recs)) topic
                   = Raise e).
  { unfold Rendering._format_report_markdown.
    change (getitem (report_of es da (length articles) data (VList recs))
              (u "executive_summary")) with (Return es).
    cbn [bind]. rewrite Hfindings. reflexivity. }
  rewrite Hraise in Hc.
  rewrite (research_topic_result _ _ _ _ _ _ Hc). split; reflexivity.
Qed.

Lemma research_topic_summary_without_findings_witness :
  let R := report_runtime in
  let c := {| search_agent := search_agent sample_collaborators;
              analysis_agent := analysis_agent sample_collaborators;
              report_agent :=
                report_stage (Return object_text) (Return object_text)
                             (Return object_text);
              Coordinator._format_report_markdown :=
                Rendering._format_report_markdown (u "2025-05-19 10:00:05");
              Coordinator._save_report :=
                Coordinator._save_report sample_collaborators;
              now := sample_clock |} in
  let run := research_topic c (u "AI") VNone idle in
  stages_of (fst run) = [Search; Analysis; Synthesis; Format]
  /\ snd run = Return (error_report (u "AI") (Exn KeyError (u "main_findings"))
                         (u "2025-05-19T10:00:05")).
Proof.
  intros R c.
  apply (@research_topic_summary_without_findings R c (u "AI") VNone
           (map VDict Samples.three_articles)
           (AnalysisAgent.results_dict AnalysisAgent.empty_results
              AnalysisAgent._get_default_overall_analysis)
           object_text
           (u "2025-05-19 10:00:05") (Return object_text) (Return object_text)
           (VDict [(u "recommendation", VStr (u "read"))])
           (Exn KeyError (u "main_findings")));
    try reflexivity.
  discriminate.
Defined.

Lemma process_unanswered `{Runtime} (data : pydict) (llm1 llm2 llm3 : outcome pystr)
    (n : nat) :
  unanswered llm1 -> unanswered llm2 -> unanswered llm3 ->
  len (dict_get data (u "articles") (VList [])) = Return n ->
  exists s,
    ReportAgent.process data llm1 llm2 llm3
    = Return (report_of (ReportAgent.summary_with s)
                ReportAgent.empty_detailed_analysis n data (VList [])).
Proof.
  intros H1 H2 H3 Hlen.
  destruct (process_report data llm1 llm2 llm3 n Hlen)
    as (es & da & recs & Hes & Hda & Hrecs & Hp).
  destruct (executive_summary_unanswered data llm1 H1) as [s Hs].
  rewrite (detailed_analysis_unanswered data llm2 H2) in Hda.
  destruct (recommendations_list data [] llm3) as (recs' & Hrecs' & Hnil).
  rewrite Hrecs in Hrecs'. injection Hrecs' as <-.
  rewrite (Hnil H3) in Hp. rewrite Hs in Hes.
  injection Hes as <-. injection Hda as <-.
  exists s. exact Hp.
Qed.

Lemma all_dicts_map (l : list pydict) : all_dicts (map VDict l) = Return l.
Proof. induction l as [|d l IH]; simpl; [|rewrite IH]; reflexivity. Qed.

Lemma analysis_stage_dicts `{Runtime} (llm : nat -> outcome pystr)
    (llm_overall : outcome pystr) (l : list pydict) :
  analysis_stage llm llm_overall (VList (map VDict l))
  = Return (VDict (AnalysisAgent.process l llm llm_overall)).
Proof. unfold analysis_stage. simpl. rewrite all_dicts_map. reflexivity. Qed.

Lemma process_nonempty_bounded `{Runtime} (raw : list pydict) (llm : outcome pystr) :
  raw <> [] ->
  SearchAgent.process raw llm <> [] /\ length (SearchAgent.process raw llm) <= 10.
Proof.
  intros Hne. unfold SearchAgent.process. destruct raw as [|a rest]; [congruence|].
  split.
  - apply (firstn_nonempty 9). apply rank_articles_nonempty. discriminate.
  - rewrite length_firstn. unfold MAX_ARTICLES_PER_SEARCH. lia.
Qed.

(** X21.  The coordinator with its own agents completes a run without any
    usable answer for the report: when the provider answers a query with a
    date range by a non-empty list of articles whose sources are dicts, the
    file system accepts the write, and none of the three calls of the report
    agent gives a text that [json.loads] decodes, then whatever the ranking
    and the analysis calls do, [research_topic] invokes search, analysis,
    synthesis, format and save in this order and returns a report with a
    fallback summary, the empty detailed analysis, no recommendation, and a
    metadata section counting between one and ten articles. *)
Theorem research_topic_completes `{Runtime} `{Provider} `{Unicode} `{FileSystem}
    (l : llms) (clock : nat -> pystr) (stamp_format stamp_save topic : pystr)
    (time_range : pyval) (range : pystr * pystr) (response : pyval)
    (items : list pyval) :
  date_range [(u "topic", VStr topic); (u "time_range", time_range)] = Return range ->
  get_everything (VStr topic) (fst range) (snd range) = Return response ->
  getitem response (u "articles") = Return (VList items) ->
  forallb well_sourced items = true ->
  items <> [] ->
  unanswered (llm_summary l) ->
  unanswered (llm_details l) ->
  unanswered (llm_recommendations l) ->
  makedirs (u "reports") = Return tt ->
  (forall name content, write_text name content = Return tt) ->
  let run := research_topic (assembled l clock stamp_format stamp_save)
               topic time_range idle in
  stages_of (fst run) = pipeline
  /\ exists s n,
       1 <= n <= 10
       /\ snd run
          = Return (report_of (ReportAgent.summary_with s)
                      ReportAgent.empty_detailed_analysis n
                      [(u "topic", VStr topic); (u "timestamp", VStr (clock 0))]
                      (VList [])).
Proof.
  intros Hrange Hresponse Hlisted Hsourced Hitems Hu1 Hu2 Hu3 Hmk Hwrite. cbv zeta.
  set (c := assembled l clock stamp_format stamp_save).
  assert (Hfetch : exists raw,
             _fetch_articles [(u "topic", VStr topic); (u "time_range", time_range)]
             = Return raw /\ raw <> []).
  { unfold _fetch_articles, fetch_body. rewrite Hrange. cbn [bind].
    change (getitem (VDict [(u "topic", VStr topic); (u "time_range", time_range)])
              (u "topic")) with (Return (VStr topic)).
    cbn [bind]. rewrite Hresponse. cbn [bind]. rewrite Hlisted. cbn [bind iterate].
    pose proof (normalize_all_well_sourced items) as Hall.
    rewrite Hsourced in Hall. destruct Hall as (raw & -> & Hlen).
    exists raw. split; [reflexivity|].
    destruct raw; [destruct items; [congruence | discriminate] | discriminate]. }
  destruct Hfetch as (raw & Hfetch & Hraw).
  destruct (process_nonempty_bounded raw (llm_ranking l) Hraw) as [Hne Hten].
  set (found := SearchAgent.process raw (llm_ranking l)) in *.
  assert (Hsearch : search_agent c (query topic time_range)
                    = Return (VList (map VDict found))).
  { unfold c, assembled, search_stage, query, search. cbn [search_agent].
    rewrite Hfetch. reflexivity. }
  assert (Htruthy : truthy (VList (map VDict found)) = true)
    by (destruct found; [congruence | reflexivity]).
  set (analysis := AnalysisAgent.process found (llm_article l) (llm_overall l)).
  assert (Hanalysis : analysis_agent c (VList (map VDict found))
                      = Return (VDict analysis))
    by apply analysis_stage_dicts.
  set (data := [ (u "topic", VStr topic);
                 (u "timestamp", VStr (clock 0));
                 (u "articles", VList (map VDict found));
                 (u "analysis", VDict analysis) ]).
  assert (Hlen : len (dict_get data (u "articles") (VList []))
                 = Return (length found)).
  { change (dict_get data (u "articles") (VList []))
      with (VList (map VDict found)).
    simpl. rewrite length_map. reflexivity. }
  destruct (process_unanswered data _ _ _ _ Hu1 Hu2 Hu3 Hlen) as [s Hp].
  assert (Hreport : report_agent c
                      (report_data topic (now c (readings idle))
                         (VList (map VDict found)) (VDict analysis))
                    = Return (report_of (ReportAgent.summary_with s)
                                ReportAgent.empty_detailed_analysis
                                (length found) data (VList [])))
    by exact Hp.
  destruct (format_fallback_report s stamp_format topic (length found) data)
    as [md Hmd].
  assert (Hformat : Coordinator._format_report_markdown c
                      (report_of (ReportAgent.summary_with s)
                         ReportAgent.empty_detailed_analysis
                         (length found) data (VList [])) topic
                    = Return md) by exact Hmd.
  assert (Hsave : Coordinator._save_report c md topic
                  = Return (filename topic stamp_save)).
  { unfold c, assembled, Rendering._save_report. cbn [Coordinator._save_report].
    rewrite Hmk. cbn [bind]. rewrite Hwrite. reflexivity. }
  pose proof (research_body_cases c topic time_range idle) as Hc. cbv zeta in Hc.
  rewrite Hsearch, Htruthy, Hanalysis, Hreport, Hformat, Hsave in Hc.
  rewrite (research_topic_result _ _ _ _ _ _ Hc).
  split; [reflexivity|].
  exists s, (length found). split; [|reflexivity].
  split; [|exact Hten]. destruct found; [congruence | simpl; lia].
Qed.

Lemma research_topic_completes_witness :
  let R := Samples.ranking_runtime in
  let P := dated (Return two_raw) in
  let U := ascii_only in
  let F := writable in
  let run := research_topic
               (assembled (unavailable transport_error) sample_clock
                  (u "2025-05-19 10:00:05") (u "2025-05-19_100005"))
               (u "AI") last_week idle in
  stages_of (fst run) = pipeline
  /\ exists s n,
       1 <= n <= 10
       /\ snd run
          = Return (report_of (ReportAgent.summary_with s)
                      ReportAgent.empty_detailed_analysis n
                      [ (u "topic", VStr (u "AI"));
                        (u "timestamp", VStr (sample_clock 0)) ]
                      (VList [])).
Proof.
  intros R P U F.
  apply (@research_topic_completes R P U F (unavailable transport_error)
           sample_clock (u "2025-05-19 10:00:05") (u "2025-05-19_100005") (u "AI")
           last_week (u "2025-05-12", u "2025-05-19") two_raw
           [raw_article "zero"; raw_article "one"]);
    try reflexivity; try exact I.
  discriminate.
Defined.
